(** * leaf: message processors of the network layer

    A shallow embedding of the two message processors of the repository,
    [ProcessorV1] (package protobuf, network/protobuf/protobuf_v1.go) and
    [Processor] (package extend), with the properties of registration,
    framing and routing proved about them.

    - a [uint16] is an [N]; the two header bytes are [Byte.byte]s and the
      conversions of encoding/binary are written out with [N.shiftr],
      [N.shiftl] and [N.lor];
    - a Go map is a [gmap]; [map[reflect.Type]...] is keyed by an
      [option rtype], the nil interface being [None];
    - calls that leave the processor (message handlers, the chanrpc router,
      proto.Marshal and proto.Unmarshal) are recorded, in order, in a trace
      of events;
    - [log.Fatal] ends the process: a configuration call returns [Fatal]
      together with the registry as it is at that moment. *)

From Stdlib Require Import NArith ZArith Lia.
From Stdlib.Strings Require Import Byte.
From stdpp Require Import gmap strings list fin_maps countable pretty.

Local Open Scope N_scope.

(** ** Integers and bytes *)

Abbreviation uint16 := N (only parsing).

(** math.MaxUint16 = 1<<16 - 1 *)
Definition MaxUint16 : N := 65535.

(** The Go conversion [byte(v)] of an unsigned integer: the low 8 bits. *)
Definition byte_of_uint (v : N) : byte :=
  default x00 (Byte.of_N (v mod 256)).

(** encoding/binary, for 16-bit values.  [PutUint16] fills the two-byte
    slice made by the caller; [Uint16] reads the first two bytes and panics
    (index out of range) on a shorter slice, which is [None] here. *)
Module BigEndian.
Definition PutUint16 (v : uint16) : list byte :=
  [byte_of_uint (N.shiftr v 8); byte_of_uint v].
Definition Uint16 (b : list byte) : option uint16 :=
  match b with
  | b0 :: b1 :: _ => Some (N.lor (Byte.to_N b1) (N.shiftl (Byte.to_N b0) 8))
  | _ => None
  end.
End BigEndian.

Module LittleEndian.
Definition PutUint16 (v : uint16) : list byte :=
  [byte_of_uint v; byte_of_uint (N.shiftr v 8)].
Definition Uint16 (b : list byte) : option uint16 :=
  match b with
  | b0 :: b1 :: _ => Some (N.lor (Byte.to_N b0) (N.shiftl (Byte.to_N b1) 8))
  | _ => None
  end.
End LittleEndian.

(** ** reflect.Type *)

Inductive rtype :=
| Uint8
| Uint16
| Slice (elem : rtype)
| Struct (name : string)
| Ptr (elem : rtype).

Inductive Kind := KUint8 | KUint16 | KSlice | KStruct | KPtr.

Definition kind_of (t : rtype) : Kind :=
  match t with
  | Uint8 => KUint8
  | Uint16 => KUint16
  | Slice _ => KSlice
  | Struct _ => KStruct
  | Ptr _ => KPtr
  end.

(** [t.Elem()]; panics ([None]) on a type that has no element type. *)
Definition Elem (t : rtype) : option rtype :=
  match t with
  | Ptr e | Slice e => Some e
  | _ => None
  end.

#[global] Instance rtype_eq_dec : EqDecision rtype.
Proof. solve_decision. Defined.

#[global] Instance Kind_eq_dec : EqDecision Kind.
Proof. solve_decision. Defined.

Fixpoint rtype_to_tree (t : rtype) : gen_tree string :=
  match t with
  | Uint8 => GenNode 0 []
  | Uint16 => GenNode 1 []
  | Slice e => GenNode 2 [rtype_to_tree e]
  | Struct s => GenLeaf s
  | Ptr e => GenNode 3 [rtype_to_tree e]
  end.

Fixpoint rtype_of_tree (g : gen_tree string) : option rtype :=
  match g with
  | GenLeaf s => Some (Struct s)
  | GenNode 0 [] => Some Uint8
  | GenNode 1 [] => Some Uint16
  | GenNode 2 [g'] => Slice <$> rtype_of_tree g'
  | GenNode 3 [g'] => Ptr <$> rtype_of_tree g'
  | _ => None
  end.

#[global] Instance rtype_countable : Countable rtype.
Proof.
  refine (inj_countable rtype_to_tree rtype_of_tree _).
  intros t; induction t as [| |e IH|s|e IH]; simpl; try rewrite IH; reflexivity.
Defined.

(** A value of the interface type [reflect.Type]: [None] is nil. *)
Abbreviation Type_ := (option rtype) (only parsing).

(** ** Handlers, routers, messages *)

(** A non-nil [MsgHandler] (a func value) and a non-nil [*chanrpc.Server]
    are known by a name; nil is [None]. *)
Inductive Func := FuncVal (name : nat).
Inductive Server := ServerRef (name : nat).
Abbreviation MsgHandler := (option Func) (only parsing).

#[global] Instance Func_eq_dec : EqDecision Func.
Proof. solve_decision. Defined.
#[global] Instance Server_eq_dec : EqDecision Server.
Proof. solve_decision. Defined.

Module MsgRaw.
Record t := mk { msgID : uint16; msgRawData : list byte }.
End MsgRaw.

(** The serialization collaborator (google.golang.org/protobuf/proto), an
    opaque codec per schema.  [body] is what a message struct holds;
    [zero e] is the zero value of the struct type [e], which
    [reflect.New(e)] points to; [proto_Unmarshal data t b] is the body
    after deserializing [data] into a message of type [t] that held [b],
    with the error returned. *)
Class Proto := {
  body : Type;
  proto_error : Type;
  zero : rtype -> body;
  proto_Marshal : rtype -> body -> list byte * option proto_error;
  proto_Unmarshal : list byte -> rtype -> body -> body * option proto_error
}.

Section Values.
Context `{Proto}.

(** A value of type [any]: nil, a uint16, a byte slice, a [MsgRaw] struct
    value, or a message of dynamic type [t] (for a registered message, a
    pointer to a struct) with its body. *)
Inductive any :=
| ANil
| AUint16 (v : uint16)
| ABytes (b : list byte)
| ARaw (m : MsgRaw.t)
| AMsg (t : rtype) (v : body).

Definition TypeOf (msg : any) : Type_ :=
  match msg with
  | ANil => None
  | AUint16 _ => Some Uint16
  | ABytes _ => Some (Slice Uint8)
  | ARaw _ => Some (Struct "MsgRaw")
  | AMsg t _ => Some t
  end.

(** Calls that leave the processor, as [Route], [Marshal] and [Unmarshal]
    make them. *)
Inductive event :=
| EvCall (h : Func) (args : list any)
| EvGo (s : Server) (id : Type_) (args : list any)
| EvProtoMarshal (msg : any)
| EvProtoUnmarshal (data : list byte) (msg : any).

Inductive error :=
| ErrMarshalNotRegistered (t : Type_)
| ErrRouteIDNotRegistered (id : uint16)
| ErrRouteNotRegistered (t : Type_)
| ErrTooShort
| ErrUnmarshalIDNotRegistered (id : uint16)
| ErrProto (e : proto_error).

Inductive panic := NilDereference | TypeAssertion | ElemOfNonPointer | IndexOutOfRange.

Inductive result (A : Type) :=
| Value (a : A)
| Panics (why : panic).
#[global] Arguments Value {A} a.
#[global] Arguments Panics {A} why.

(** A computation: the calls it made, then its value or the panic that
    ended it. *)
Definition eff (A : Type) : Type := list event * result A.

Definition ret {A} (a : A) : eff A := ([], Value a).
Definition throw {A} (why : panic) : eff A := ([], Panics why).
Definition emit (e : event) : eff unit := ([e], Value tt).
Definition bind {A B} (m : eff A) (k : A -> eff B) : eff B :=
  match m with
  | (tr, Value a) => let '(tr', r) := k a in (tr ++ tr', r)
  | (tr, Panics why) => (tr, Panics why)
  end.

Definition trace {A} (m : eff A) : list event := fst m.
Definition outcome_of {A} (m : eff A) : result A := snd m.

End Values.

Notation "'let*' x ':=' m 'in' k" := (bind m (fun x => k))
  (at level 10, x name, m at level 100, k at level 200, only parsing).
Notation "m ';;' k" := (bind m (fun _ => k))
  (at level 100, k at level 200, right associativity, only parsing).

Section Calls.
Context `{Proto}.

(** [h(args)] for a non-nil handler, [s.Go(id, args...)] for a non-nil
    router: the call is recorded, the callee is not looked into. *)
Definition call (h : Func) (args : list any) : eff unit := emit (EvCall h args).
Definition Go (s : Server) (id : Type_) (args : list any) : eff unit :=
  emit (EvGo s id args).

(** Reading a field through a pointer taken from a map: a missing key gives
    the nil pointer, and the field access panics. *)
Definition deref {A} (o : option A) : eff A :=
  match o with
  | Some a => ret a
  | None => throw NilDereference
  end.

(** [binary.*.Uint16(data)], which panics on fewer than two bytes. *)
Definition index2 (o : option uint16) : eff uint16 :=
  match o with
  | Some v => ret v
  | None => throw IndexOutOfRange
  end.

(** [msg.(proto.Message)] *)
Definition as_proto_Message (msg : any) : eff (rtype * body) :=
  match msg with
  | AMsg t v => ret (t, v)
  | _ => throw TypeAssertion
  end.

(** [proto.Marshal(msg.(proto.Message))] *)
Definition protoMarshal (msg : any) : eff (list byte * option error) :=
  let* m := as_proto_Message msg in
  emit (EvProtoMarshal msg) ;;
  let '(data, err) := proto_Marshal (fst m) (snd m) in
  ret (data, ErrProto <$> err).

(** [proto.Unmarshal(data, msg.(proto.Message))]: the message after the
    call and the error. *)
Definition protoUnmarshal (data : list byte) (msg : any) : eff (any * option error) :=
  let* m := as_proto_Message msg in
  emit (EvProtoUnmarshal data msg) ;;
  let '(v', err) := proto_Unmarshal data (fst m) (snd m) in
  ret (AMsg (fst m) v', ErrProto <$> err).

(** [reflect.New(t.Elem()).Interface()] for [t] of type [reflect.Type]. *)
Definition new_elem (t : Type_) : eff any :=
  match t with
  | None => throw NilDereference
  | Some t =>
      match Elem t with
      | None => throw ElemOfNonPointer
      | Some e => ret (AMsg (Ptr e) (zero e))
      end
  end.

End Calls.


(** ** Configuration calls *)

Inductive fatal :=
| FatalNotPointer
| FatalAlreadyRegistered (t : Type_)
| FatalTooMany
| FatalNotRegistered (t : Type_)
| FatalIDNotRegistered (id : uint16).

(** What a configuration call does to a processor of type [S]: it returns
    with the processor updated, or [log.Fatal] ends the process, or a panic
    does; the last two keep the processor as it is at that moment. *)
Inductive outcome (S : Type) :=
| Ok (s : S)
| Fatal (why : fatal) (s : S)
| Crash (why : panic) (s : S).
#[global] Arguments Ok {S} s.
#[global] Arguments Fatal {S} why s.
#[global] Arguments Crash {S} why s.

(** ** package protobuf: ProcessorV1 (network/protobuf/protobuf_v1.go) *)

Module V1.

Module MsgInfoV1.
Record t := mk {
  msgType : Type_;
  msgID : uint16;
  msgRouter : option Server;
  msgHandler : MsgHandler;
  msgRawHandler : MsgHandler
}.
Definition with_msgRouter (i : t) (r : option Server) : t :=
  mk (msgType i) (msgID i) r (msgHandler i) (msgRawHandler i).
Definition with_msgHandler (i : t) (h : MsgHandler) : t :=
  mk (msgType i) (msgID i) (msgRouter i) h (msgRawHandler i).
Definition with_msgRawHandler (i : t) (h : MsgHandler) : t :=
  mk (msgType i) (msgID i) (msgRouter i) (msgHandler i) h.
End MsgInfoV1.

Record ProcessorV1 := mkProcessorV1 {
  littleEndian : bool;
  msgInfo : gmap (option rtype) MsgInfoV1.t;
  msgID : gmap (option rtype) N;
  typeID : gmap N (option rtype)
}.

Definition NewMsgIdProcessor : ProcessorV1 :=
  {| littleEndian := false; msgInfo := ∅; msgID := ∅; typeID := ∅ |}.

Definition SetByteOrder (p : ProcessorV1) (littleEndian' : bool) : outcome ProcessorV1 :=
  Ok (mkProcessorV1 littleEndian' (msgInfo p) (msgID p) (typeID p)).

(** [p.msgInfo[msgType].f = v]: the record the map points to is updated in
    place; a missing key gives a nil pointer, and the assignment panics. *)
Definition update_info (p : ProcessorV1) (msgType : Type_)
    (f : MsgInfoV1.t -> MsgInfoV1.t) : outcome ProcessorV1 :=
  match msgInfo p !! msgType with
  | None => Crash NilDereference p
  | Some i =>
      Ok (mkProcessorV1 (littleEndian p) (<[msgType := f i]> (msgInfo p))
            (msgID p) (typeID p))
  end.

(** [Range(f)]: [f] is called once for each record of [msgInfo], with the
    ID and the type that the record holds; these are the arguments of the
    calls.  Go leaves the order of a map iteration open: the calls stand
    here in the order of [map_to_list], and what is proved of them does not
    depend on the order. *)
Definition Range (p : ProcessorV1) : list (uint16 * Type_) :=
  (fun kv => (MsgInfoV1.msgID (snd kv), MsgInfoV1.msgType (snd kv)))
    <$> map_to_list (msgInfo p).

Section Methods.
Context `{Proto}.

Definition SetRouter (p : ProcessorV1) (msg : any) (msgRouter : option Server)
    : outcome ProcessorV1 :=
  let msgType := TypeOf msg in
  match msgID p !! msgType with
  | None => Fatal (FatalNotRegistered msgType) p
  | Some _ => update_info p msgType (fun i => MsgInfoV1.with_msgRouter i msgRouter)
  end.

Definition SetHandler (p : ProcessorV1) (msg : any) (msgHandler : MsgHandler)
    : outcome ProcessorV1 :=
  let msgType := TypeOf msg in
  match msgID p !! msgType with
  | None => Fatal (FatalNotRegistered msgType) p
  | Some _ => update_info p msgType (fun i => MsgInfoV1.with_msgHandler i msgHandler)
  end.

Definition SetRawHandler (p : ProcessorV1) (id : uint16) (msgRawHandler : MsgHandler)
    : outcome ProcessorV1 :=
  match typeID p !! id with
  | None => Fatal (FatalIDNotRegistered id) p
  | Some msgType =>
      update_info p msgType (fun i => MsgInfoV1.with_msgRawHandler i msgRawHandler)
  end.

Definition Marshal (p : ProcessorV1) (msg : any)
    : eff (option (list (list byte)) * option error) :=
  let msgType := TypeOf msg in
  match msgInfo p !! msgType with
  | None => ret (None, Some (ErrMarshalNotRegistered msgType))
  | Some i =>
      let id :=
        if littleEndian p
        then LittleEndian.PutUint16 (MsgInfoV1.msgID i)
        else BigEndian.PutUint16 (MsgInfoV1.msgID i) in
      let* r := protoMarshal msg in
      ret (Some [id; fst r], snd r)
  end.

Definition Route (p : ProcessorV1) (msg userData : any) : eff (option error) :=
  match msg with
  | ARaw msgRaw =>
      match typeID p !! MsgRaw.msgID msgRaw with
      | None => ret (Some (ErrRouteIDNotRegistered (MsgRaw.msgID msgRaw)))
      | Some msgType =>
          let* i := deref (msgInfo p !! msgType) in
          match MsgInfoV1.msgRawHandler i with
          | Some h =>
              call h [AUint16 (MsgRaw.msgID msgRaw);
                      ABytes (MsgRaw.msgRawData msgRaw); userData]
          | None => ret tt
          end ;;
          ret None
      end
  | _ =>
      let msgType := TypeOf msg in
      match msgID p !! msgType with
      | None => ret (Some (ErrRouteNotRegistered msgType))
      | Some _ =>
          let* i := deref (msgInfo p !! msgType) in
          match MsgInfoV1.msgHandler i with
          | Some h => call h [msg; userData]
          | None => ret tt
          end ;;
          match MsgInfoV1.msgRouter i with
          | Some s => Go s msgType [msg; userData]
          | None => ret tt
          end ;;
          ret None
      end
  end.

Definition Unmarshal (p : ProcessorV1) (data : list byte)
    : eff (option any * option error) :=
  if (length data <? 2)%nat then ret (None, Some ErrTooShort) else
  let* id :=
    index2 (if littleEndian p
            then LittleEndian.Uint16 data
            else BigEndian.Uint16 data) in
  match typeID p !! id with
  | None => ret (None, Some (ErrUnmarshalIDNotRegistered id))
  | Some msgType =>
      let* i := deref (msgInfo p !! msgType) in
      match MsgInfoV1.msgRawHandler i with
      | Some _ => ret (Some (ARaw (MsgRaw.mk id (drop 2 data))), None)
      | None =>
          let* msg := new_elem (MsgInfoV1.msgType i) in
          let* r := protoUnmarshal (drop 2 data) msg in
          ret (Some (fst r), snd r)
      end
  end.

Definition Register (p : ProcessorV1) (msgID' : uint16) (msg : any)
    : outcome ProcessorV1 :=
  let msgType := TypeOf msg in
  match msgType with
  | None => Fatal FatalNotPointer p
  | Some t =>
      if bool_decide (kind_of t ≠ KPtr) then Fatal FatalNotPointer p else
      match msgInfo p !! msgType with
      | Some _ => Fatal (FatalAlreadyRegistered msgType) p
      | None =>
          if (MaxUint16 <=? N.of_nat (size (msgInfo p)))%N then Fatal FatalTooMany p else
          Ok {| littleEndian := littleEndian p;
                msgInfo := <[msgType := MsgInfoV1.mk msgType msgID' None None None]> (msgInfo p);
                msgID := <[msgType := msgID']> (msgID p);
                typeID := <[msgID' := msgType]> (typeID p) |}
      end
  end.

(** A configuration phase: calls made one after the other, stopping at the
    first that does not return. *)
Inductive op :=
| OpRegister (id : uint16) (msg : any)
| OpSetHandler (msg : any) (h : MsgHandler)
| OpSetRouter (msg : any) (r : option Server)
| OpSetRawHandler (id : uint16) (h : MsgHandler)
| OpSetByteOrder (littleEndian' : bool).

Definition step (p : ProcessorV1) (o : op) : outcome ProcessorV1 :=
  match o with
  | OpRegister id msg => Register p id msg
  | OpSetHandler msg h => SetHandler p msg h
  | OpSetRouter msg r => SetRouter p msg r
  | OpSetRawHandler id h => SetRawHandler p id h
  | OpSetByteOrder b => SetByteOrder p b
  end.

Fixpoint run (p : ProcessorV1) (ops : list op) : outcome ProcessorV1 :=
  match ops with
  | [] => Ok p
  | o :: ops' =>
      match step p o with
      | Ok p' => run p' ops'
      | stopped => stopped
      end
  end.

End Methods.

End V1.

(** ** package extend: Processor *)

Module Extend.

Module MsgInfo.
Record t := mk {
  msgType : Type_;
  msgID : uint16;
  msgRouter : option Server;
  msgHandler : MsgHandler;
  msgRawHandler : MsgHandler
}.
Definition with_msgRouter (i : t) (r : option Server) : t :=
  mk (msgType i) (msgID i) r (msgHandler i) (msgRawHandler i).
Definition with_msgHandler (i : t) (h : MsgHandler) : t :=
  mk (msgType i) (msgID i) (msgRouter i) h (msgRawHandler i).
Definition with_msgRawHandler (i : t) (h : MsgHandler) : t :=
  mk (msgType i) (msgID i) (msgRouter i) (msgHandler i) h.
End MsgInfo.

Record Processor := mkProcessor {
  littleEndian : bool;
  msgInfo : gmap N MsgInfo.t;
  msgID : gmap (option rtype) N
}.

(** Modelled from the spec: the constructor of [Processor] is not among the
    sources.  "Registry is constructed empty", and the byte order is
    "default big-endian": the maps are made empty and [littleEndian] keeps
    its zero value. *)
Definition NewProcessor : Processor :=
  {| littleEndian := false; msgInfo := ∅; msgID := ∅ |}.

(** [v, ok := m[k]]: the zero value and false for a missing key. *)
Definition comma_ok (m : gmap (option rtype) N) (k : Type_) : uint16 * bool :=
  match m !! k with
  | Some v => (v, true)
  | None => (0, false)
  end.

Definition SetByteOrder (p : Processor) (littleEndian' : bool) : outcome Processor :=
  Ok (mkProcessor littleEndian' (msgInfo p) (msgID p)).

(** [p.msgInfo[id].f = v] *)
Definition update_info (p : Processor) (id : uint16)
    (f : MsgInfo.t -> MsgInfo.t) : outcome Processor :=
  match msgInfo p !! id with
  | None => Crash NilDereference p
  | Some i => Ok (mkProcessor (littleEndian p) (<[id := f i]> (msgInfo p)) (msgID p))
  end.

(** [Range(f)]: the arguments of the calls of [f], one for each record of
    [msgInfo], in the order of [map_to_list] (Go leaves the order open). *)
Definition Range (p : Processor) : list (uint16 * Type_) :=
  (fun kv => (MsgInfo.msgID (snd kv), MsgInfo.msgType (snd kv)))
    <$> map_to_list (msgInfo p).

Section Methods.
Context `{Proto}.

Definition Marshal (p : Processor) (msg : any)
    : eff (option (list (list byte)) * option error) :=
  let msgType := TypeOf msg in
  match msgID p !! msgType with
  | None => ret (None, Some (ErrMarshalNotRegistered msgType))
  | Some msgId =>
      let id :=
        if littleEndian p
        then LittleEndian.PutUint16 msgId
        else BigEndian.PutUint16 msgId in
      let* r := protoMarshal msg in
      ret (Some [id; fst r], snd r)
  end.

Definition Route (p : Processor) (msg userData : any) : eff (option error) :=
  match msg with
  | ARaw msgRaw =>
      match msgInfo p !! MsgRaw.msgID msgRaw with
      | None => ret (Some (ErrRouteIDNotRegistered (MsgRaw.msgID msgRaw)))
      | Some info =>
          match MsgInfo.msgRawHandler info with
          | Some h =>
              call h [AUint16 (MsgRaw.msgID msgRaw);
                      ABytes (MsgRaw.msgRawData msgRaw); userData]
          | None => ret tt
          end ;;
          ret None
      end
  | _ =>
      let msgType := TypeOf msg in
      match msgID p !! msgType with
      | None => ret (Some (ErrRouteNotRegistered msgType))
      | Some id =>
          let* info := deref (msgInfo p !! id) in
          match MsgInfo.msgHandler info with
          | Some h => call h [msg; userData]
          | None => ret tt
          end ;;
          match MsgInfo.msgRouter info with
          | Some s => Go s msgType [msg; userData]
          | None => ret tt
          end ;;
          ret None
      end
  end.

Definition Unmarshal (p : Processor) (data : list byte)
    : eff (option any * option error) :=
  if (length data <? 2)%nat then ret (None, Some ErrTooShort) else
  let* id :=
    index2 (if littleEndian p
            then LittleEndian.Uint16 data
            else BigEndian.Uint16 data) in
  match msgInfo p !! id with
  | None => ret (None, Some (ErrUnmarshalIDNotRegistered id))
  | Some info =>
      match MsgInfo.msgRawHandler info with
      | Some _ => ret (Some (ARaw (MsgRaw.mk id (drop 2 data))), None)
      | None =>
          let* msg := new_elem (MsgInfo.msgType info) in
          let* r := protoUnmarshal (drop 2 data) msg in
          ret (Some (fst r), snd r)
      end
  end.

Definition Register (p : Processor) (msgID' : uint16) (msg : any)
    : outcome Processor :=
  let msgType := TypeOf msg in
  match msgType with
  | None => Fatal FatalNotPointer p
  | Some t =>
      if bool_decide (kind_of t ≠ KPtr) then Fatal FatalNotPointer p else
      let '(id, ok) := comma_ok (msgID p) msgType in
      if ok then Fatal (FatalAlreadyRegistered msgType) p else
      if (MaxUint16 <=? N.of_nat (size (msgInfo p)))%N then Fatal FatalTooMany p else
      Ok {| littleEndian := littleEndian p;
            msgInfo := <[id := MsgInfo.mk msgType msgID' None None None]> (msgInfo p);
            msgID := <[msgType := msgID']> (msgID p) |}
  end.

Definition SetRouter (p : Processor) (msg : any) (msgRouter : option Server)
    : outcome Processor :=
  let msgType := TypeOf msg in
  match msgID p !! msgType with
  | None => Fatal (FatalNotRegistered msgType) p
  | Some id => update_info p id (fun i => MsgInfo.with_msgRouter i msgRouter)
  end.

Definition SetHandler (p : Processor) (msg : any) (msgHandler : MsgHandler)
    : outcome Processor :=
  let msgType := TypeOf msg in
  match msgID p !! msgType with
  | None => Fatal (FatalNotRegistered msgType) p
  | Some id => update_info p id (fun i => MsgInfo.with_msgHandler i msgHandler)
  end.

Definition SetRawHandler (p : Processor) (id : uint16) (msgRawHandler : MsgHandler)
    : outcome Processor :=
  match msgInfo p !! id with
  | None => Fatal (FatalIDNotRegistered id) p
  | Some info =>
      Ok (mkProcessor (littleEndian p)
            (<[id := MsgInfo.with_msgRawHandler info msgRawHandler]> (msgInfo p))
            (msgID p))
  end.

Inductive op :=
| OpRegister (id : uint16) (msg : any)
| OpSetHandler (msg : any) (h : MsgHandler)
| OpSetRouter (msg : any) (r : option Server)
| OpSetRawHandler (id : uint16) (h : MsgHandler)
| OpSetByteOrder (littleEndian' : bool).

Definition step (p : Processor) (o : op) : outcome Processor :=
  match o with
  | OpRegister id msg => Register p id msg
  | OpSetHandler msg h => SetHandler p msg h
  | OpSetRouter msg r => SetRouter p msg r
  | OpSetRawHandler id h => SetRawHandler p id h
  | OpSetByteOrder b => SetByteOrder p b
  end.

Fixpoint run (p : Processor) (ops : list op) : outcome Processor :=
  match ops with
  | [] => Ok p
  | o :: ops' =>
      match step p o with
      | Ok p' => run p' ops'
      | stopped => stopped
      end
  end.

End Methods.

End Extend.

(** ** Reading the registry *)

Section Registry.
Context `{Proto}.

(** A fresh instance of the schema [Ptr e]: what [reflect.New(e)] gives. *)
Definition fresh (e : rtype) : any := AMsg (Ptr e) (zero e).

(** The header of a frame, read in the byte order of the processor. *)
Definition header (littleEndian : bool) (data : list byte) : option uint16 :=
  if littleEndian then LittleEndian.Uint16 data else BigEndian.Uint16 data.

Definition is_raw (msg : any) : bool :=
  match msg with
  | ARaw _ => true
  | _ => false
  end.

Definition is_go (e : event) : bool :=
  match e with
  | EvGo _ _ _ => true
  | _ => false
  end.

Definition is_proto (e : event) : bool :=
  match e with
  | EvProtoMarshal _ | EvProtoUnmarshal _ _ => true
  | _ => false
  end.

(** The record [Route] and [Unmarshal] of [ProcessorV1] reach from an ID,
    and the one [Route] reaches from a schema it finds registered. *)
Definition V1_info_of_id (p : V1.ProcessorV1) (id : uint16) : option V1.MsgInfoV1.t :=
  t ← V1.typeID p !! id; V1.msgInfo p !! t.

Definition V1_info_of_type (p : V1.ProcessorV1) (t : Type_) : option V1.MsgInfoV1.t :=
  _ ← V1.msgID p !! t; V1.msgInfo p !! t.

(** The same for [Processor]. *)
Definition Extend_info_of_id (p : Extend.Processor) (id : uint16) : option Extend.MsgInfo.t :=
  Extend.msgInfo p !! id.

Definition Extend_info_of_type (p : Extend.Processor) (t : Type_) : option Extend.MsgInfo.t :=
  id ← Extend.msgID p !! t; Extend.msgInfo p !! id.

(** The one call [Route] can make for a raw message. *)
Definition raw_call (o : MsgHandler) (m : MsgRaw.t) (userData : any) : list event :=
  match o with
  | Some h => [EvCall h [AUint16 (MsgRaw.msgID m); ABytes (MsgRaw.msgRawData m); userData]]
  | None => []
  end.

(** What holds of a [ProcessorV1] throughout a configuration phase. *)
Record V1_wf (p : V1.ProcessorV1) : Prop := {
  wf_info : forall t i, V1.msgInfo p !! t = Some i ->
      V1.MsgInfoV1.msgType i = t /\
      V1.msgID p !! t = Some (V1.MsgInfoV1.msgID i) /\
      exists e, t = Some (Ptr e);
  wf_msgID : forall t id, V1.msgID p !! t = Some id ->
      is_Some (V1.msgInfo p !! t) /\ is_Some (V1.typeID p !! id);
  wf_typeID : forall id t, V1.typeID p !! id = Some t ->
      V1.msgID p !! t = Some id;
  wf_size : (size (V1.msgInfo p) <= N.to_nat MaxUint16)%nat
}.

(** The binding is a bijection: a schema is bound to an ID on the encode
    side exactly when the ID is bound to the schema on the decode side. *)
Definition V1_bijective (p : V1.ProcessorV1) : Prop :=
  forall t id, V1.msgID p !! t = Some id <-> V1.typeID p !! id = Some t.

Definition V1_sets_byte_order (o : V1.op) : bool :=
  match o with
  | V1.OpSetByteOrder _ => true
  | _ => false
  end.

Definition Extend_sets_byte_order (o : Extend.op) : bool :=
  match o with
  | Extend.OpSetByteOrder _ => true
  | _ => false
  end.

(** What holds of a [Processor] throughout a configuration phase that
    starts with empty maps: every schema with an ID is a pointer type, and
    [msgInfo] holds no key but 0, whose record repeats a schema and the ID
    it has. *)
Record Extend_wf (p : Extend.Processor) : Prop := {
  ewf_key : forall k i, Extend.msgInfo p !! k = Some i -> k = 0;
  ewf_info : forall k i, Extend.msgInfo p !! k = Some i ->
      exists e, Extend.MsgInfo.msgType i = Some (Ptr e) /\
                Extend.msgID p !! Some (Ptr e) = Some (Extend.MsgInfo.msgID i);
  ewf_msgID : forall t id, Extend.msgID p !! t = Some id -> exists e, t = Some (Ptr e)
}.

(** Whether a configuration call is a [Register] under the ID [k]. *)
Definition V1_registers_id (k : uint16) (o : V1.op) : bool :=
  match o with
  | V1.OpRegister id _ => N.eqb id k
  | _ => false
  end.

(** The byte order that a configuration phase leaves, started with [b]:
    the argument of its last [SetByteOrder]. *)
Definition V1_byte_order_after (ops : list V1.op) (b : bool) : bool :=
  fold_left (fun b o => match o with V1.OpSetByteOrder b' => b' | _ => b end) ops b.

Definition Extend_byte_order_after (ops : list Extend.op) (b : bool) : bool :=
  fold_left (fun b o => match o with Extend.OpSetByteOrder b' => b' | _ => b end) ops b.

(** The calls [Route] makes for a message that is not a [MsgRaw], given the
    handler and the router of its record. *)
Definition typed_calls (h : MsgHandler) (r : option Server) (msg userData : any)
    : list event :=
  match h with
  | Some f => [EvCall f [msg; userData]]
  | None => []
  end ++
  match r with
  | Some s => [EvGo s (TypeOf msg) [msg; userData]]
  | None => []
  end.

End Registry.

(** ** Concrete messages *)

(** A serializer whose message body is its own wire bytes. *)
Definition wire : Proto := {|
  body := list byte;
  proto_error := unit;
  zero := fun _ => [];
  proto_Marshal := fun _ b => (b, None);
  proto_Unmarshal := fun data _ _ => (data, None)
|}.

Definition Ping : rtype := Ptr (Struct "Ping").
Definition Pong : rtype := Ptr (Struct "Pong").

(** [Ping{Seq: 7}] and the zero [Ping], [Pong] under [wire]. *)
Definition ping7 : @any wire := @AMsg wire Ping [x08; x07].
Definition ping0 : @any wire := @AMsg wire Ping [].
Definition pong0 : @any wire := @AMsg wire Pong [].

(** Distinct schemas [M0], [M1], ... and the configuration phase that
    registers the first [n] of them, [Mk] under the ID [k]. *)
Definition schema (k : nat) : rtype := Ptr (Struct ("M" +:+ pretty k)).

Definition fill (n : nat) : list (@V1.op wire) :=
  (fun k => @V1.OpRegister wire (N.of_nat k) (@AMsg wire (schema k) [])) <$> seq 0 n.

(** The processor that a configuration phase leaves, started on an empty
    one. *)
Definition V1_after (ops : list (@V1.op wire)) : V1.ProcessorV1 :=
  match V1.run V1.NewMsgIdProcessor ops with
  | Ok p | Fatal _ p | Crash _ p => p
  end.

Definition Extend_after (ops : list (@Extend.op wire)) : Extend.Processor :=
  match Extend.run Extend.NewProcessor ops with
  | Ok p | Fatal _ p | Crash _ p => p
  end.

Ltac run_eff :=
  unfold protoUnmarshal, protoMarshal, new_elem, as_proto_Message, index2,
    deref, call, Go, bind, emit, ret, throw in *; simpl in *.

(** * Properties *)

(** ** The two-byte header *)

Lemma to_N_byte_of_uint v : Byte.to_N (byte_of_uint v) = v mod 256.
Proof.
  unfold byte_of_uint.
  destruct (Byte.of_N (v mod 256)) as [b|] eqn:E; simpl.
  - by apply Byte.to_of_N.
  - apply Byte.of_N_None_iff in E.
    pose proof (N.mod_upper_bound v 256). lia.
Qed.

Lemma byte_of_uint_to_N b : byte_of_uint (Byte.to_N b) = b.
Proof.
  unfold byte_of_uint.
  pose proof (Byte.to_N_bounded b).
  rewrite N.mod_small by lia.
  by rewrite Byte.of_to_N.
Qed.

Lemma lor_low_high (v : N) :
  v < 65536 ->
  N.lor (v mod 256) (N.shiftl (N.shiftr v 8 mod 256) 8) = v.
Proof.
  intros Hv.
  assert (Hhi : N.shiftr v 8 mod 256 = N.shiftr v 8).
  { apply N.mod_small. rewrite N.shiftr_div_pow2.
    apply N.Div0.div_lt_upper_bound. simpl. lia. }
  rewrite Hhi. apply N.bits_inj. intros n.
  rewrite N.lor_spec.
  change 256 with (2 ^ 8).
  destruct (N.lt_ge_cases n 8) as [Hn|Hn].
  - rewrite N.mod_pow2_bits_low by done.
    rewrite N.shiftl_spec_low by done. by rewrite orb_false_r.
  - rewrite N.mod_pow2_bits_high by done.
    rewrite N.shiftl_spec_high' by done.
    rewrite N.shiftr_spec'. simpl. f_equal. lia.
Qed.

Lemma BigEndian_Uint16_PutUint16 v rest :
  v < 65536 -> BigEndian.Uint16 (BigEndian.PutUint16 v ++ rest) = Some v.
Proof.
  intros Hv. simpl. rewrite !to_N_byte_of_uint. f_equal. by apply lor_low_high.
Qed.

Lemma LittleEndian_Uint16_PutUint16 v rest :
  v < 65536 -> LittleEndian.Uint16 (LittleEndian.PutUint16 v ++ rest) = Some v.
Proof.
  intros Hv. simpl. rewrite !to_N_byte_of_uint. f_equal. by apply lor_low_high.
Qed.

Lemma header_PutUint16 (le : bool) v rest :
  v < 65536 ->
  header le ((if le then LittleEndian.PutUint16 v else BigEndian.PutUint16 v) ++ rest)
  = Some v.
Proof.
  intros Hv. destruct le; unfold header.
  - by apply LittleEndian_Uint16_PutUint16.
  - by apply BigEndian_Uint16_PutUint16.
Qed.

Lemma BigEndian_Uint16_value b0 b1 rest :
  BigEndian.Uint16 (b0 :: b1 :: rest) = Some (256 * Byte.to_N b0 + Byte.to_N b1).
Proof.
  simpl. f_equal.
  pose proof (Byte.to_N_bounded b1) as H1.
  rewrite N.shiftl_mul_pow2.
  assert (Hland : N.land (Byte.to_N b0 * 2 ^ 8) (Byte.to_N b1) = 0).
  { apply N.bits_inj. intros n. rewrite N.land_spec, N.bits_0.
    destruct (N.lt_ge_cases n 8) as [Hn|Hn].
    - by rewrite N.mul_pow2_bits_low.
    - rewrite <- (N.mod_small (Byte.to_N b1) (2 ^ 8)) by (simpl; lia).
      rewrite N.mod_pow2_bits_high by done. apply andb_false_r. }
  rewrite N.lor_comm, <- N.lxor_lor, <- N.add_nocarry_lxor by done.
  change (2 ^ 8) with 256. lia.
Qed.

(** ** Unmarshal *)

Section Decode.
Context `{Proto}.

Lemma header_Some_length le data k :
  header le data = Some k -> exists b0 b1 rest, data = b0 :: b1 :: rest.
Proof.
  unfold header, LittleEndian.Uint16, BigEndian.Uint16.
  destruct data as [|b0 [|b1 rest]]; destruct le; try done; eauto.
Qed.

(** C7: on an input of length 0 or 1, [Unmarshal] of either processor
    returns the too-short error and no message; it makes no call, reads no
    header (a read would have panicked) and looks nothing up (the result is
    the same whatever the processor holds). *)
Theorem C7_Unmarshal_too_short (data : list byte) :
  (length data = 0 \/ length data = 1)%nat ->
  (forall p, V1.Unmarshal p data = ([], Value (None, Some ErrTooShort))) /\
  (forall p, Extend.Unmarshal p data = ([], Value (None, Some ErrTooShort))).
Proof.
  intros Hlen.
  assert (Hlt : (length data <? 2)%nat = true) by (apply Nat.ltb_lt; lia).
  split; intros p.
  - unfold V1.Unmarshal. by rewrite Hlt.
  - unfold Extend.Unmarshal. by rewrite Hlt.
Qed.

Lemma V1_Unmarshal_raw p data k i h :
  header (V1.littleEndian p) data = Some k ->
  V1_info_of_id p k = Some i ->
  V1.MsgInfoV1.msgRawHandler i = Some h ->
  V1.Unmarshal p data = ([], Value (Some (ARaw (MsgRaw.mk k (drop 2 data))), None)).
Proof.
  intros Hk Hi Hh.
  destruct (header_Some_length _ _ _ Hk) as (b0 & b1 & rest & ->).
  unfold V1.Unmarshal. unfold header in Hk. rewrite Hk.
  unfold V1_info_of_id in Hi.
  destruct (V1.typeID p !! k) as [t|] eqn:Et; [|done]. simpl in Hi.
  run_eff. rewrite Et, Hi. simpl. by rewrite Hh.
Qed.

Lemma Extend_Unmarshal_raw p data k i h :
  header (Extend.littleEndian p) data = Some k ->
  Extend_info_of_id p k = Some i ->
  Extend.MsgInfo.msgRawHandler i = Some h ->
  Extend.Unmarshal p data = ([], Value (Some (ARaw (MsgRaw.mk k (drop 2 data))), None)).
Proof.
  intros Hk Hi Hh.
  destruct (header_Some_length _ _ _ Hk) as (b0 & b1 & rest & ->).
  unfold Extend.Unmarshal. unfold header in Hk. rewrite Hk.
  unfold Extend_info_of_id in Hi.
  run_eff. rewrite Hi. by rewrite Hh.
Qed.

(** C5: when the ID [k] read from the header of a frame of at least two
    bytes is registered with a raw handler attached, [Unmarshal] returns
    the [MsgRaw] of [k] and of the bytes after the header, as they are,
    and makes no call at all: proto.Unmarshal is not invoked. *)
Theorem C5_Unmarshal_raw (data : list byte) (k : uint16) (h : Func) :
  (2 <= length data)%nat ->
  (forall p i,
      header (V1.littleEndian p) data = Some k ->
      V1_info_of_id p k = Some i ->
      V1.MsgInfoV1.msgRawHandler i = Some h ->
      V1.Unmarshal p data
      = ([], Value (Some (ARaw (MsgRaw.mk k (drop 2 data))), None)) /\
      forallb (fun e => negb (is_proto e)) (trace (V1.Unmarshal p data)) = true) /\
  (forall p i,
      header (Extend.littleEndian p) data = Some k ->
      Extend_info_of_id p k = Some i ->
      Extend.MsgInfo.msgRawHandler i = Some h ->
      Extend.Unmarshal p data
      = ([], Value (Some (ARaw (MsgRaw.mk k (drop 2 data))), None)) /\
      forallb (fun e => negb (is_proto e)) (trace (Extend.Unmarshal p data)) = true).
Proof.
  intros _. split; intros p i Hk Hi Hh.
  - by rewrite (V1_Unmarshal_raw p data k i h).
  - by rewrite (Extend_Unmarshal_raw p data k i h).
Qed.

End Decode.

(** ** Route *)

Section Dispatch.
Context `{Proto}.

Lemma V1_Route_raw_trace p m userData :
  trace (V1.Route p (ARaw m) userData)
  = raw_call (i ← V1_info_of_id p (MsgRaw.msgID m); V1.MsgInfoV1.msgRawHandler i) m userData.
Proof.
  unfold V1.Route, V1_info_of_id.
  destruct (V1.typeID p !! MsgRaw.msgID m) as [t|]; [|done]. simpl.
  destruct (V1.msgInfo p !! t) as [i|]; [|done]. simpl.
  by destruct (V1.MsgInfoV1.msgRawHandler i).
Qed.

Lemma Extend_Route_raw_trace p m userData :
  trace (Extend.Route p (ARaw m) userData)
  = raw_call (i ← Extend_info_of_id p (MsgRaw.msgID m); Extend.MsgInfo.msgRawHandler i) m userData.
Proof.
  unfold Extend.Route, Extend_info_of_id.
  destruct (Extend.msgInfo p !! MsgRaw.msgID m) as [i|]; [|done]. simpl.
  by destruct (Extend.MsgInfo.msgRawHandler i).
Qed.

Lemma raw_call_no_go o m userData : forallb (fun e => negb (is_go e)) (raw_call o m userData) = true.
Proof. by destruct o. Qed.

(** C9: for a [MsgRaw], [Route] of either processor makes no router
    submission: the calls it makes are the call of the raw handler attached
    to the ID, if there is one, and nothing else, whatever router the record
    holds. *)
Theorem C9_Route_raw_never_submits (m : MsgRaw.t) (userData : any) :
  (forall p : V1.ProcessorV1,
      trace (V1.Route p (ARaw m) userData)
      = raw_call (i ← V1_info_of_id p (MsgRaw.msgID m); V1.MsgInfoV1.msgRawHandler i)
          m userData /\
      forallb (fun e => negb (is_go e)) (trace (V1.Route p (ARaw m) userData)) = true) /\
  (forall p : Extend.Processor,
      trace (Extend.Route p (ARaw m) userData)
      = raw_call (i ← Extend_info_of_id p (MsgRaw.msgID m); Extend.MsgInfo.msgRawHandler i)
          m userData /\
      forallb (fun e => negb (is_go e)) (trace (Extend.Route p (ARaw m) userData)) = true).
Proof.
  split; intros p.
  - rewrite V1_Route_raw_trace. split; [done|apply raw_call_no_go].
  - rewrite Extend_Route_raw_trace. split; [done|apply raw_call_no_go].
Qed.

Lemma V1_Route_typed p msg userData i :
  is_raw msg = false ->
  V1_info_of_type p (TypeOf msg) = Some i ->
  V1.Route p msg userData
  = (match V1.MsgInfoV1.msgHandler i with
     | Some h => [EvCall h [msg; userData]]
     | None => []
     end ++
     match V1.MsgInfoV1.msgRouter i with
     | Some s => [EvGo s (TypeOf msg) [msg; userData]]
     | None => []
     end, Value None).
Proof.
  intros Hraw Hi. unfold V1_info_of_type in Hi.
  destruct (V1.msgID p !! TypeOf msg) as [id|] eqn:Eid; [|done]. simpl in Hi.
  destruct msg; try done; unfold V1.Route; rewrite Eid, Hi; run_eff;
    by destruct (V1.MsgInfoV1.msgHandler i), (V1.MsgInfoV1.msgRouter i).
Qed.

Lemma Extend_Route_typed p msg userData i :
  is_raw msg = false ->
  Extend_info_of_type p (TypeOf msg) = Some i ->
  Extend.Route p msg userData
  = (match Extend.MsgInfo.msgHandler i with
     | Some h => [EvCall h [msg; userData]]
     | None => []
     end ++
     match Extend.MsgInfo.msgRouter i with
     | Some s => [EvGo s (TypeOf msg) [msg; userData]]
     | None => []
     end, Value None).
Proof.
  intros Hraw Hi. unfold Extend_info_of_type in Hi.
  destruct (Extend.msgID p !! TypeOf msg) as [id|] eqn:Eid; [|done]. simpl in Hi.
  destruct msg; try done; unfold Extend.Route; rewrite Eid, Hi; run_eff;
    by destruct (Extend.MsgInfo.msgHandler i), (Extend.MsgInfo.msgRouter i).
Qed.

(** C4: for a message that is not a [MsgRaw] and whose schema is registered
    with a local handler [h] and a router [s] attached, one [Route] makes
    exactly two calls, in this order: [h] with the message and the context,
    then one submission to [s] with the same message and context; then it
    returns nil. *)
Theorem C4_Route_handler_then_router (msg userData : any) (h : Func) (s : Server) :
  is_raw msg = false ->
  (forall p i,
      V1_info_of_type p (TypeOf msg) = Some i ->
      V1.MsgInfoV1.msgHandler i = Some h ->
      V1.MsgInfoV1.msgRouter i = Some s ->
      V1.Route p msg userData
      = ([EvCall h [msg; userData]; EvGo s (TypeOf msg) [msg; userData]], Value None)) /\
  (forall p i,
      Extend_info_of_type p (TypeOf msg) = Some i ->
      Extend.MsgInfo.msgHandler i = Some h ->
      Extend.MsgInfo.msgRouter i = Some s ->
      Extend.Route p msg userData
      = ([EvCall h [msg; userData]; EvGo s (TypeOf msg) [msg; userData]], Value None)).
Proof.
  intros Hraw. split; intros p i Hi Hh Hs.
  - rewrite (V1_Route_typed p msg userData i) by done. by rewrite Hh, Hs.
  - rewrite (Extend_Route_typed p msg userData i) by done. by rewrite Hh, Hs.
Qed.

End Dispatch.

(** ** The registry of ProcessorV1 through a configuration phase *)

Section V1_registry.
Context `{Proto}.

Lemma V1_wf_New : V1_wf V1.NewMsgIdProcessor.
Proof.
  split; simpl.
  - intros t i Hi. by rewrite lookup_empty in Hi.
  - intros t id Hid. by rewrite lookup_empty in Hid.
  - intros id t Ht. by rewrite lookup_empty in Ht.
  - rewrite map_size_empty. lia.
Qed.

(** What a successful [Register] found and did. *)
Lemma V1_Register_Ok p id msg p' :
  V1.Register p id msg = Ok p' ->
  exists e,
    TypeOf msg = Some (Ptr e) /\
    V1.msgInfo p !! Some (Ptr e) = None /\
    (N.of_nat (size (V1.msgInfo p)) < MaxUint16) /\
    p' = V1.mkProcessorV1 (V1.littleEndian p)
           (<[Some (Ptr e) := V1.MsgInfoV1.mk (Some (Ptr e)) id None None None]> (V1.msgInfo p))
           (<[Some (Ptr e) := id]> (V1.msgID p))
           (<[id := Some (Ptr e)]> (V1.typeID p)).
Proof.
  unfold V1.Register. intros HR.
  destruct (TypeOf msg) as [t|] eqn:Et; [|done].
  case_bool_decide as Hk; [done|].
  destruct (V1.msgInfo p !! Some t) eqn:Ei; [done|].
  destruct (MaxUint16 <=? N.of_nat (size (V1.msgInfo p))) eqn:Hsz; [done|].
  apply N.leb_gt in Hsz.
  destruct t as [| |e'|s|e]; try discriminate Hk.
  exists e. repeat split; try done. by inversion HR.
Qed.

Lemma V1_Register_wf p id msg p' :
  V1_wf p -> V1.Register p id msg = Ok p' -> V1_wf p'.
Proof.
  intros Hwf HR. apply V1_Register_Ok in HR as (e & Et & Ei & Hsz & ->).
  split; simpl.
  - intros t i. rewrite lookup_insert. case_decide as Hd.
    + intros [= <-]. subst t. simpl. rewrite lookup_insert_eq. eauto.
    + intros Hi. destruct (wf_info p Hwf t i Hi) as (? & ? & ?).
      rewrite lookup_insert_ne by done. eauto.
  - intros t id'. rewrite lookup_insert. case_decide as Hd.
    + intros [= <-]. subst t. rewrite !lookup_insert_eq. eauto.
    + intros Hid. destruct (wf_msgID p Hwf t id' Hid) as [Hi Ht].
      rewrite lookup_insert_ne by done. split; [done|].
      rewrite lookup_insert. case_decide; eauto.
  - intros id' t. rewrite lookup_insert. case_decide as Hd.
    + intros [= <-]. subst id'. by rewrite lookup_insert_eq.
    + intros Ht. pose proof (wf_typeID p Hwf id' t Ht) as Hid.
      destruct (wf_msgID p Hwf t id' Hid) as [[i Hi] _].
      rewrite lookup_insert_ne; [done|]. intros <-. congruence.
  - rewrite map_size_insert_None by done. unfold MaxUint16 in *. lia.
Qed.

Lemma V1_update_info_wf p t f p' :
  (forall i, V1.MsgInfoV1.msgType (f i) = V1.MsgInfoV1.msgType i) ->
  (forall i, V1.MsgInfoV1.msgID (f i) = V1.MsgInfoV1.msgID i) ->
  V1_wf p -> V1.update_info p t f = Ok p' -> V1_wf p'.
Proof.
  intros Hty Hid Hwf. unfold V1.update_info.
  destruct (V1.msgInfo p !! t) as [i|] eqn:Ei; [|done]. intros [= <-].
  split; simpl.
  - intros t' i'. rewrite lookup_insert. case_decide as Hd.
    + intros [= <-]. subst t'. rewrite Hty, Hid. by apply (wf_info p Hwf).
    + by apply (wf_info p Hwf).
  - intros t' id' Hid'. destruct (wf_msgID p Hwf t' id' Hid') as [Hi Ht].
    split; [|done]. rewrite lookup_insert. case_decide; eauto.
  - by apply (wf_typeID p Hwf).
  - rewrite map_size_insert_Some by eauto. by apply (wf_size p Hwf).
Qed.

Lemma V1_step_wf p o p' : V1_wf p -> V1.step p o = Ok p' -> V1_wf p'.
Proof.
  intros Hwf. destruct o as [id msg|msg h|msg r|id h|b]; simpl.
  - by apply V1_Register_wf.
  - unfold V1.SetHandler. destruct (V1.msgID p !! TypeOf msg); [|done].
    by apply V1_update_info_wf.
  - unfold V1.SetRouter. destruct (V1.msgID p !! TypeOf msg); [|done].
    by apply V1_update_info_wf.
  - unfold V1.SetRawHandler. destruct (V1.typeID p !! id); [|done].
    by apply V1_update_info_wf.
  - unfold V1.SetByteOrder. intros [= <-]. by destruct Hwf.
Qed.

Lemma V1_run_wf ops : forall p p', V1_wf p -> V1.run p ops = Ok p' -> V1_wf p'.
Proof.
  induction ops as [|o ops IH]; intros p p' Hwf; simpl.
  - by intros [= <-].
  - destruct (V1.step p o) as [p1| |] eqn:Es; try done.
    apply IH. by eapply V1_step_wf.
Qed.

Lemma V1_reachable_wf ops p :
  V1.run V1.NewMsgIdProcessor ops = Ok p -> V1_wf p.
Proof. apply V1_run_wf, V1_wf_New. Qed.

Lemma V1_run_app ops1 ops2 p p1 :
  V1.run p ops1 = Ok p1 -> V1.run p (ops1 ++ ops2) = V1.run p1 ops2.
Proof.
  revert p. induction ops1 as [|o ops1 IH]; intros p; simpl.
  - by intros [= <-].
  - destruct (V1.step p o); try done. apply IH.
Qed.

(** Registration is append-only: a configuration call that returns keeps
    every registered schema registered, under the ID it has. *)
Lemma V1_step_keeps p o p' t :
  V1.step p o = Ok p' ->
  is_Some (V1.msgInfo p !! t) -> is_Some (V1.msgInfo p' !! t).
Proof.
  assert (Hupd : forall f t0, V1.update_info p t0 f = Ok p' ->
            is_Some (V1.msgInfo p !! t) -> is_Some (V1.msgInfo p' !! t)).
  { intros f t0. unfold V1.update_info.
    destruct (V1.msgInfo p !! t0); [|done]. intros [= <-] Hs. simpl.
    rewrite lookup_insert. case_decide; eauto. }
  destruct o as [id msg|msg h|msg r|id h|b]; simpl.
  - intros HR Hs. apply V1_Register_Ok in HR as (e & Et & Ei & Hsz & ->). simpl.
    rewrite lookup_insert. case_decide; eauto.
  - unfold V1.SetHandler. destruct (V1.msgID p !! TypeOf msg); [|done]. apply Hupd.
  - unfold V1.SetRouter. destruct (V1.msgID p !! TypeOf msg); [|done]. apply Hupd.
  - unfold V1.SetRawHandler. destruct (V1.typeID p !! id); [|done]. apply Hupd.
  - by intros [= <-].
Qed.

Lemma V1_run_keeps ops : forall p p' t,
  V1.run p ops = Ok p' ->
  is_Some (V1.msgInfo p !! t) -> is_Some (V1.msgInfo p' !! t).
Proof.
  induction ops as [|o ops IH]; intros p p' t; simpl.
  - by intros [= <-].
  - destruct (V1.step p o) as [p1| |] eqn:Es; try done.
    intros Hrun Hs. eapply IH; [done|]. by eapply V1_step_keeps.
Qed.

End V1_registry.

(** ** The registry of Processor through a configuration phase *)

Section Extend_registry.
Context `{Proto}.

(** What a successful [Register] found and did: the record goes under the
    key that the failed lookup left in [id], which is 0. *)
Lemma Extend_Register_Ok p id msg p' :
  Extend.Register p id msg = Ok p' ->
  exists e,
    TypeOf msg = Some (Ptr e) /\
    Extend.msgID p !! Some (Ptr e) = None /\
    (N.of_nat (size (Extend.msgInfo p)) < MaxUint16) /\
    p' = Extend.mkProcessor (Extend.littleEndian p)
           (<[0 := Extend.MsgInfo.mk (Some (Ptr e)) id None None None]> (Extend.msgInfo p))
           (<[Some (Ptr e) := id]> (Extend.msgID p)).
Proof.
  unfold Extend.Register, Extend.comma_ok. intros HR.
  destruct (TypeOf msg) as [t|] eqn:Et; [|done].
  case_bool_decide as Hk; [done|].
  destruct (Extend.msgID p !! Some t) eqn:Ei; [done|].
  destruct (MaxUint16 <=? N.of_nat (size (Extend.msgInfo p))) eqn:Hsz; [done|].
  apply N.leb_gt in Hsz.
  destruct t as [| |e'|s|e]; try discriminate Hk.
  exists e. repeat split; try done. by inversion HR.
Qed.

Lemma Extend_step_keeps p o p' t :
  Extend.step p o = Ok p' ->
  is_Some (Extend.msgID p !! t) -> is_Some (Extend.msgID p' !! t).
Proof.
  assert (Hupd : forall f id, Extend.update_info p id f = Ok p' ->
            Extend.msgID p' = Extend.msgID p).
  { intros f id. unfold Extend.update_info.
    destruct (Extend.msgInfo p !! id); [|done]. by intros [= <-]. }
  destruct o as [id msg|msg h|msg r|id h|b]; simpl.
  - intros HR Hs. apply Extend_Register_Ok in HR as (e & Et & Ei & Hsz & ->). simpl.
    rewrite lookup_insert. case_decide; eauto.
  - unfold Extend.SetHandler. destruct (Extend.msgID p !! TypeOf msg); [|done].
    intros Hu. by rewrite (Hupd _ _ Hu).
  - unfold Extend.SetRouter. destruct (Extend.msgID p !! TypeOf msg); [|done].
    intros Hu. by rewrite (Hupd _ _ Hu).
  - unfold Extend.SetRawHandler. destruct (Extend.msgInfo p !! id); [|done].
    by intros [= <-].
  - by intros [= <-].
Qed.

Lemma Extend_run_keeps ops : forall p p' t,
  Extend.run p ops = Ok p' ->
  is_Some (Extend.msgID p !! t) -> is_Some (Extend.msgID p' !! t).
Proof.
  induction ops as [|o ops IH]; intros p p' t; simpl.
  - by intros [= <-].
  - destruct (Extend.step p o) as [p1| |] eqn:Es; try done.
    intros Hrun Hs. eapply IH; [done|]. by eapply Extend_step_keeps.
Qed.

End Extend_registry.

(** ** Registering a schema twice *)

Section Twice.
Context `{Proto}.

(** C6: once [Register] has returned for a schema, a later [Register] of
    the same schema on that processor, under any ID and after any further
    configuration calls that returned, ends in [log.Fatal] "already
    registered", and the processor at that moment is the one the call was
    made on: nothing of it has been changed. *)
Theorem C6_Register_twice_is_fatal (id id' : uint16) (msg msg' : any) :
  TypeOf msg' = TypeOf msg ->
  (forall p p1 ops p2,
      V1.Register p id msg = Ok p1 ->
      V1.run p1 ops = Ok p2 ->
      V1.Register p2 id' msg' = Fatal (FatalAlreadyRegistered (TypeOf msg)) p2) /\
  (forall p p1 ops p2,
      Extend.Register p id msg = Ok p1 ->
      Extend.run p1 ops = Ok p2 ->
      Extend.Register p2 id' msg' = Fatal (FatalAlreadyRegistered (TypeOf msg)) p2).
Proof.
  intros Hty. split; intros p p1 ops p2 HR Hrun.
  - apply V1_Register_Ok in HR as (e & Et & Ei & Hsz & ->).
    assert (Hs : is_Some (V1.msgInfo p2 !! Some (Ptr e))).
    { eapply V1_run_keeps; [done|]. simpl. rewrite lookup_insert_eq. eauto. }
    destruct Hs as [i Hi].
    unfold V1.Register. rewrite Hty, Et. simpl. by rewrite Hi.
  - apply Extend_Register_Ok in HR as (e & Et & Ei & Hsz & ->).
    assert (Hs : is_Some (Extend.msgID p2 !! Some (Ptr e))).
    { eapply Extend_run_keeps; [done|]. simpl. rewrite lookup_insert_eq. eauto. }
    destruct Hs as [i Hi].
    unfold Extend.Register, Extend.comma_ok. rewrite Hty, Et. simpl. by rewrite Hi.
Qed.

End Twice.

(** ** Route on a registered message without attachment *)

Section Unattached.
Context `{Proto}.

(** On a [ProcessorV1] that a configuration phase has built, a message the
    registry knows and that has nothing attached is dropped: [Route] makes
    no call and returns nil. *)
Lemma V1_Route_unattached_dropped ops p userData :
  V1.run V1.NewMsgIdProcessor ops = Ok p ->
  (forall msg,
      is_raw msg = false ->
      is_Some (V1.msgID p !! TypeOf msg) ->
      (i ← V1_info_of_type p (TypeOf msg); V1.MsgInfoV1.msgHandler i) = None ->
      (i ← V1_info_of_type p (TypeOf msg); V1.MsgInfoV1.msgRouter i) = None ->
      V1.Route p msg userData = ([], Value None)) /\
  (forall m,
      is_Some (V1.typeID p !! MsgRaw.msgID m) ->
      (i ← V1_info_of_id p (MsgRaw.msgID m); V1.MsgInfoV1.msgRawHandler i) = None ->
      V1.Route p (ARaw m) userData = ([], Value None)).
Proof.
  intros Hrun. apply V1_reachable_wf in Hrun as Hwf. split.
  - intros msg Hraw [id Hid] Hh Hr.
    destruct (wf_msgID p Hwf _ _ Hid) as [[i Hi] _].
    assert (Hinfo : V1_info_of_type p (TypeOf msg) = Some i).
    { unfold V1_info_of_type. by rewrite Hid. }
    rewrite Hinfo in Hh, Hr. simpl in Hh, Hr.
    rewrite (V1_Route_typed p msg userData i) by done. by rewrite Hh, Hr.
  - intros m [t Ht] Hh.
    pose proof (wf_typeID p Hwf _ _ Ht) as Hid.
    destruct (wf_msgID p Hwf _ _ Hid) as [[i Hi] _].
    unfold V1_info_of_id in Hh. rewrite Ht in Hh. simpl in Hh.
    rewrite Hi in Hh. simpl in Hh.
    unfold V1.Route. rewrite Ht, Hi. run_eff. by rewrite Hh.
Qed.

(** The raw path of [Processor] drops it as well. *)
Lemma Extend_Route_raw_unattached_dropped p m userData :
  is_Some (Extend.msgInfo p !! MsgRaw.msgID m) ->
  (i ← Extend_info_of_id p (MsgRaw.msgID m); Extend.MsgInfo.msgRawHandler i) = None ->
  Extend.Route p (ARaw m) userData = ([], Value None).
Proof.
  intros [i Hi] Hh. unfold Extend_info_of_id in Hh. rewrite Hi in Hh. simpl in Hh.
  unfold Extend.Route. rewrite Hi. run_eff. by rewrite Hh.
Qed.

(** On a [Processor], a schema registered under an ID that holds no record
    makes [Route] panic: [Register] files every record under the key 0. *)
Lemma Extend_Route_after_Register p id msg p' userData body' :
  Extend.Register p id msg = Ok p' ->
  id <> 0 ->
  Extend.msgInfo p !! id = None ->
  forall e, TypeOf msg = Some (Ptr e) ->
  Extend.Route p' (AMsg (Ptr e) body') userData = ([], Panics NilDereference).
Proof.
  intros HR Hid Hnone e Et.
  apply Extend_Register_Ok in HR as (e' & Et' & Ei & Hsz & ->).
  assert (e' = e) as -> by congruence.
  unfold Extend.Route. simpl. rewrite lookup_insert_eq.
  rewrite lookup_insert_ne by done. by rewrite Hnone.
Qed.

End Unattached.

(** C10, on [Processor]: after [Register(5, &Ping{})] on an empty
    processor the schema is registered (the lookup of [Route] and of
    [Marshal] finds it under the ID 5) and nothing is attached to it, yet
    [Route] of a [Ping] does not return nil: it panics on the nil record
    of the ID 5. *)
Theorem C10_Extend_Route_unattached_panics :
  exists p,
    @Extend.run wire Extend.NewProcessor [Extend.OpRegister 5 ping0] = Ok p /\
    Extend.msgID p !! Some Ping = Some 5 /\
    Extend_info_of_type p (Some Ping) = None /\
    Extend.Route p ping7 ANil = ([], Panics NilDereference).
Proof.
  eexists. split; [reflexivity|]. by vm_compute.
Qed.

(** ** Marshal and the default byte order *)

Section Encode.
Context `{Proto}.

Lemma V1_Marshal_registered p t v i :
  V1.msgInfo p !! Some t = Some i ->
  V1.Marshal p (AMsg t v)
  = ([EvProtoMarshal (AMsg t v)],
     Value (Some [if V1.littleEndian p
                  then LittleEndian.PutUint16 (V1.MsgInfoV1.msgID i)
                  else BigEndian.PutUint16 (V1.MsgInfoV1.msgID i);
                  fst (proto_Marshal t v)],
            ErrProto <$> snd (proto_Marshal t v))).
Proof.
  intros Hi. unfold V1.Marshal. simpl. rewrite Hi. run_eff.
  by destruct (proto_Marshal t v).
Qed.

Lemma Extend_Marshal_registered p t v id :
  Extend.msgID p !! Some t = Some id ->
  Extend.Marshal p (AMsg t v)
  = ([EvProtoMarshal (AMsg t v)],
     Value (Some [if Extend.littleEndian p
                  then LittleEndian.PutUint16 id
                  else BigEndian.PutUint16 id;
                  fst (proto_Marshal t v)],
            ErrProto <$> snd (proto_Marshal t v))).
Proof.
  intros Hi. unfold Extend.Marshal. simpl. rewrite Hi. run_eff.
  by destruct (proto_Marshal t v).
Qed.

Lemma V1_run_byte_order ops : forall p p',
  forallb (fun o => negb (V1_sets_byte_order o)) ops = true ->
  V1.run p ops = Ok p' -> V1.littleEndian p' = V1.littleEndian p.
Proof.
  induction ops as [|o ops IH]; intros p p'; simpl.
  - by intros _ [= <-].
  - intros [Ho Hops]%andb_true_iff.
    destruct (V1.step p o) as [p1| |] eqn:Es; try done.
    intros Hrun. rewrite (IH p1 p' Hops Hrun).
    assert (Hupd : forall f t, V1.update_info p t f = Ok p1 ->
              V1.littleEndian p1 = V1.littleEndian p).
    { intros f t. unfold V1.update_info.
      destruct (V1.msgInfo p !! t); [|done]. by intros [= <-]. }
    destruct o as [id msg|msg h|msg r|id h|b]; simpl in Es; try done.
    + by apply V1_Register_Ok in Es as (e & _ & _ & _ & ->).
    + unfold V1.SetHandler in Es. destruct (V1.msgID p !! TypeOf msg); [|done]. eauto.
    + unfold V1.SetRouter in Es. destruct (V1.msgID p !! TypeOf msg); [|done]. eauto.
    + unfold V1.SetRawHandler in Es. destruct (V1.typeID p !! id); [|done]. eauto.
Qed.

Lemma Extend_run_byte_order ops : forall p p',
  forallb (fun o => negb (Extend_sets_byte_order o)) ops = true ->
  Extend.run p ops = Ok p' -> Extend.littleEndian p' = Extend.littleEndian p.
Proof.
  induction ops as [|o ops IH]; intros p p'; simpl.
  - by intros _ [= <-].
  - intros [Ho Hops]%andb_true_iff.
    destruct (Extend.step p o) as [p1| |] eqn:Es; try done.
    intros Hrun. rewrite (IH p1 p' Hops Hrun).
    assert (Hupd : forall f t, Extend.update_info p t f = Ok p1 ->
              Extend.littleEndian p1 = Extend.littleEndian p).
    { intros f t. unfold Extend.update_info.
      destruct (Extend.msgInfo p !! t); [|done]. by intros [= <-]. }
    destruct o as [id msg|msg h|msg r|id h|b]; simpl in Es; try done.
    + by apply Extend_Register_Ok in Es as (e & _ & _ & _ & ->).
    + unfold Extend.SetHandler in Es. destruct (Extend.msgID p !! TypeOf msg); [|done]. eauto.
    + unfold Extend.SetRouter in Es. destruct (Extend.msgID p !! TypeOf msg); [|done]. eauto.
    + unfold Extend.SetRawHandler in Es. destruct (Extend.msgInfo p !! id); [|done].
      by inversion Es.
Qed.

Lemma V1_Unmarshal_unknown p b0 b1 rest :
  V1.littleEndian p = false ->
  V1.typeID p !! (256 * Byte.to_N b0 + Byte.to_N b1) = None ->
  V1.Unmarshal p (b0 :: b1 :: rest)
  = ([], Value (None, Some (ErrUnmarshalIDNotRegistered (256 * Byte.to_N b0 + Byte.to_N b1)))).
Proof.
  intros Hle Hnone. unfold V1.Unmarshal. rewrite Hle.
  rewrite BigEndian_Uint16_value. run_eff. by rewrite Hnone.
Qed.

Lemma Extend_Unmarshal_unknown p b0 b1 rest :
  Extend.littleEndian p = false ->
  Extend.msgInfo p !! (256 * Byte.to_N b0 + Byte.to_N b1) = None ->
  Extend.Unmarshal p (b0 :: b1 :: rest)
  = ([], Value (None, Some (ErrUnmarshalIDNotRegistered (256 * Byte.to_N b0 + Byte.to_N b1)))).
Proof.
  intros Hle Hnone. unfold Extend.Unmarshal. rewrite Hle.
  rewrite BigEndian_Uint16_value. run_eff. by rewrite Hnone.
Qed.

(** C8: [NewMsgIdProcessor] leaves [littleEndian] false, and no
    configuration call but [SetByteOrder] changes it.  So on a processor
    configured without [SetByteOrder] the header that [Marshal] writes is
    the ID in big-endian order (the bytes 0x00, 0x01 for the ID 1), and
    [Unmarshal] reads the header [b0, b1] as the ID 256*b0 + b1.  The same
    holds of a [Processor] whose [littleEndian] started false. *)
Theorem C8_default_byte_order_is_big_endian :
  V1.littleEndian V1.NewMsgIdProcessor = false /\
  (forall ops p,
      forallb (fun o => negb (V1_sets_byte_order o)) ops = true ->
      V1.run V1.NewMsgIdProcessor ops = Ok p ->
      V1.littleEndian p = false /\
      (forall t v i, V1.msgInfo p !! Some t = Some i ->
          V1.Marshal p (AMsg t v)
          = ([EvProtoMarshal (AMsg t v)],
             Value (Some [BigEndian.PutUint16 (V1.MsgInfoV1.msgID i);
                          fst (proto_Marshal t v)],
                    ErrProto <$> snd (proto_Marshal t v)))) /\
      (forall t v i, V1.msgInfo p !! Some t = Some i ->
          V1.MsgInfoV1.msgID i = 1 ->
          V1.Marshal p (AMsg t v)
          = ([EvProtoMarshal (AMsg t v)],
             Value (Some [[x00; x01]; fst (proto_Marshal t v)],
                    ErrProto <$> snd (proto_Marshal t v)))) /\
      (forall b0 b1 rest,
          V1.typeID p !! (256 * Byte.to_N b0 + Byte.to_N b1) = None ->
          V1.Unmarshal p (b0 :: b1 :: rest)
          = ([], Value (None, Some (ErrUnmarshalIDNotRegistered
                                      (256 * Byte.to_N b0 + Byte.to_N b1))))) /\
      (forall b0 b1 rest i h,
          V1_info_of_id p (256 * Byte.to_N b0 + Byte.to_N b1) = Some i ->
          V1.MsgInfoV1.msgRawHandler i = Some h ->
          V1.Unmarshal p (b0 :: b1 :: rest)
          = ([], Value (Some (ARaw (MsgRaw.mk (256 * Byte.to_N b0 + Byte.to_N b1) rest)),
                        None)))) /\
  (forall ops q0 q,
      Extend.littleEndian q0 = false ->
      forallb (fun o => negb (Extend_sets_byte_order o)) ops = true ->
      Extend.run q0 ops = Ok q ->
      Extend.littleEndian q = false /\
      (forall t v id, Extend.msgID q !! Some t = Some id ->
          Extend.Marshal q (AMsg t v)
          = ([EvProtoMarshal (AMsg t v)],
             Value (Some [BigEndian.PutUint16 id; fst (proto_Marshal t v)],
                    ErrProto <$> snd (proto_Marshal t v)))) /\
      (forall t v, Extend.msgID q !! Some t = Some 1 ->
          Extend.Marshal q (AMsg t v)
          = ([EvProtoMarshal (AMsg t v)],
             Value (Some [[x00; x01]; fst (proto_Marshal t v)],
                    ErrProto <$> snd (proto_Marshal t v)))) /\
      (forall b0 b1 rest,
          Extend.msgInfo q !! (256 * Byte.to_N b0 + Byte.to_N b1) = None ->
          Extend.Unmarshal q (b0 :: b1 :: rest)
          = ([], Value (None, Some (ErrUnmarshalIDNotRegistered
                                      (256 * Byte.to_N b0 + Byte.to_N b1))))) /\
      (forall b0 b1 rest i h,
          Extend_info_of_id q (256 * Byte.to_N b0 + Byte.to_N b1) = Some i ->
          Extend.MsgInfo.msgRawHandler i = Some h ->
          Extend.Unmarshal q (b0 :: b1 :: rest)
          = ([], Value (Some (ARaw (MsgRaw.mk (256 * Byte.to_N b0 + Byte.to_N b1) rest)),
                        None)))).
Proof.
  split; [done|]. split.
  - intros ops p Hops Hrun.
    pose proof (V1_run_byte_order ops _ _ Hops Hrun) as Hle. simpl in Hle.
    split; [done|]. split; [|split; [|split]].
    + intros t v i Hi. rewrite (V1_Marshal_registered p t v i Hi). by rewrite Hle.
    + intros t v i Hi Hid. rewrite (V1_Marshal_registered p t v i Hi).
      by rewrite Hle, Hid.
    + intros b0 b1 rest. by apply V1_Unmarshal_unknown.
    + intros b0 b1 rest i h Hi Hh.
      rewrite (V1_Unmarshal_raw p _ (256 * Byte.to_N b0 + Byte.to_N b1) i h); try done.
      rewrite Hle. apply BigEndian_Uint16_value.
  - intros ops q0 q Hq0 Hops Hrun.
    pose proof (Extend_run_byte_order ops _ _ Hops Hrun) as Hle.
    rewrite Hq0 in Hle. split; [done|]. split; [|split; [|split]].
    + intros t v id Hi. rewrite (Extend_Marshal_registered q t v id Hi). by rewrite Hle.
    + intros t v Hi. rewrite (Extend_Marshal_registered q t v 1 Hi). by rewrite Hle.
    + intros b0 b1 rest. by apply Extend_Unmarshal_unknown.
    + intros b0 b1 rest i h Hi Hh.
      rewrite (Extend_Unmarshal_raw q _ (256 * Byte.to_N b0 + Byte.to_N b1) i h); try done.
      rewrite Hle. apply BigEndian_Uint16_value.
Qed.

End Encode.

(** ** The binding that Register makes *)

Section Binding.
Context `{Proto}.

Lemma V1_Register_fresh p id e v :
  V1.msgInfo p !! Some (Ptr e) = None ->
  N.of_nat (size (V1.msgInfo p)) < MaxUint16 ->
  V1.Register p id (AMsg (Ptr e) v)
  = Ok (V1.mkProcessorV1 (V1.littleEndian p)
          (<[Some (Ptr e) := V1.MsgInfoV1.mk (Some (Ptr e)) id None None None]> (V1.msgInfo p))
          (<[Some (Ptr e) := id]> (V1.msgID p))
          (<[id := Some (Ptr e)]> (V1.typeID p))).
Proof.
  intros Hnone Hsz. unfold V1.Register. simpl. rewrite Hnone.
  apply N.leb_gt in Hsz. by rewrite Hsz.
Qed.

Lemma V1_Register_full p id e v :
  V1.msgInfo p !! Some (Ptr e) = None ->
  MaxUint16 <= N.of_nat (size (V1.msgInfo p)) ->
  V1.Register p id (AMsg (Ptr e) v) = Fatal FatalTooMany p.
Proof.
  intros Hnone Hsz. unfold V1.Register. simpl. rewrite Hnone.
  apply N.leb_le in Hsz. by rewrite Hsz.
Qed.

Lemma Extend_Register_fresh p id e v :
  Extend.msgID p !! Some (Ptr e) = None ->
  N.of_nat (size (Extend.msgInfo p)) < MaxUint16 ->
  Extend.Register p id (AMsg (Ptr e) v)
  = Ok (Extend.mkProcessor (Extend.littleEndian p)
          (<[0 := Extend.MsgInfo.mk (Some (Ptr e)) id None None None]> (Extend.msgInfo p))
          (<[Some (Ptr e) := id]> (Extend.msgID p))).
Proof.
  intros Hnone Hsz. unfold Extend.Register, Extend.comma_ok. simpl. rewrite Hnone.
  apply N.leb_gt in Hsz. by rewrite Hsz.
Qed.

Lemma Extend_Register_full p id e v :
  Extend.msgID p !! Some (Ptr e) = None ->
  MaxUint16 <= N.of_nat (size (Extend.msgInfo p)) ->
  Extend.Register p id (AMsg (Ptr e) v) = Fatal FatalTooMany p.
Proof.
  intros Hnone Hsz. unfold Extend.Register, Extend.comma_ok. simpl. rewrite Hnone.
  apply N.leb_le in Hsz. by rewrite Hsz.
Qed.

Lemma V1_Register_bijective p id msg p' :
  V1_wf p -> V1_bijective p -> V1.typeID p !! id = None ->
  V1.Register p id msg = Ok p' -> V1_bijective p'.
Proof.
  intros Hwf Hbij Hfree HR.
  apply V1_Register_Ok in HR as (e & Et & Ei & Hsz & ->).
  assert (Hnew : V1.msgID p !! Some (Ptr e) = None).
  { destruct (V1.msgID p !! Some (Ptr e)) as [id0|] eqn:E; [|done].
    destruct (wf_msgID p Hwf _ _ E) as [[i Hi] _]. congruence. }
  intros t id'. simpl. split.
  - rewrite lookup_insert. case_decide as Hd.
    + intros [= <-]. subst t. by rewrite lookup_insert_eq.
    + intros Hid. apply Hbij in Hid.
      rewrite lookup_insert_ne; [done|]. intros <-. congruence.
  - rewrite lookup_insert. case_decide as Hd.
    + intros [= <-]. subst id'. by rewrite lookup_insert_eq.
    + intros Ht. apply Hbij in Ht.
      rewrite lookup_insert_ne; [done|]. intros <-. congruence.
Qed.

(** C2, as the code has it for [ProcessorV1]: after any configuration
    phase, every registered schema has one ID, which its record repeats and
    which the decode side binds to some schema, and every ID bound on the
    decode side is the ID of the schema it is bound to.  A [Register(id,
    schema)] that returns binds [id] to [schema] on the encode side and on
    the decode side and leaves every other schema and every other ID as
    they were; so an ID that another schema held is rebound on the decode
    side while that schema keeps it on the encode side.  The binding stays
    a bijection as long as each [Register] brings an ID that the decode
    side does not hold yet. *)
Theorem C2_V1_Register_binds_both_sides (ops : list V1.op) (p : V1.ProcessorV1) :
  V1.run V1.NewMsgIdProcessor ops = Ok p ->
  (forall t id, V1.msgID p !! t = Some id ->
      is_Some (V1.typeID p !! id) /\
      exists i, V1.msgInfo p !! t = Some i /\
                V1.MsgInfoV1.msgType i = t /\ V1.MsgInfoV1.msgID i = id) /\
  (forall id t, V1.typeID p !! id = Some t -> V1.msgID p !! t = Some id) /\
  (forall id msg p',
      V1.Register p id msg = Ok p' ->
      V1.msgID p' !! TypeOf msg = Some id /\
      V1.typeID p' !! id = Some (TypeOf msg) /\
      V1.msgInfo p' !! TypeOf msg
      = Some (V1.MsgInfoV1.mk (TypeOf msg) id None None None) /\
      (forall t, t <> TypeOf msg -> V1.msgID p' !! t = V1.msgID p !! t) /\
      (forall id', id' <> id -> V1.typeID p' !! id' = V1.typeID p !! id') /\
      (V1_bijective p -> V1.typeID p !! id = None -> V1_bijective p')).
Proof.
  intros Hrun. apply V1_reachable_wf in Hrun as Hwf.
  split; [|split].
  - intros t id Hid. destruct (wf_msgID p Hwf t id Hid) as [[i Hi] Hbound].
    split; [done|].
    destruct (wf_info p Hwf t i Hi) as (Hty & Hid' & _).
    exists i. repeat split; [done..|congruence].
  - by apply (wf_typeID p Hwf).
  - intros id msg p' HR.
    pose proof (fun Hb Hfree => V1_Register_bijective p id msg p' Hwf Hb Hfree HR) as Hbij.
    apply V1_Register_Ok in HR as (e & Et & _ & _ & ->). rewrite Et. simpl.
    rewrite !lookup_insert_eq.
    split; [done|]. split; [done|]. split; [done|]. split; [|split].
    + intros t Ht. by rewrite lookup_insert_ne.
    + intros id' Hid'. by rewrite lookup_insert_ne.
    + done.
Qed.

(** C3, as the code has it: [Register] of a fresh valid schema passes the
    capacity check exactly when the table of records holds fewer than
    65535 (math.MaxUint16) entries and ends in [log.Fatal] "too many" from
    65535 entries on; a [ProcessorV1] never holds more than 65535. *)
Theorem C3_capacity_is_MaxUint16 :
  (forall p id e v,
      V1.msgInfo p !! Some (Ptr e) = None ->
      (N.of_nat (size (V1.msgInfo p)) < 65535 ->
         exists p', V1.Register p id (AMsg (Ptr e) v) = Ok p' /\
                    size (V1.msgInfo p') = S (size (V1.msgInfo p))) /\
      (65535 <= N.of_nat (size (V1.msgInfo p)) ->
         V1.Register p id (AMsg (Ptr e) v) = Fatal FatalTooMany p)) /\
  (forall ops p,
      V1.run V1.NewMsgIdProcessor ops = Ok p ->
      N.of_nat (size (V1.msgInfo p)) <= 65535) /\
  (forall p id e v,
      Extend.msgID p !! Some (Ptr e) = None ->
      (N.of_nat (size (Extend.msgInfo p)) < 65535 ->
         exists p', Extend.Register p id (AMsg (Ptr e) v) = Ok p') /\
      (65535 <= N.of_nat (size (Extend.msgInfo p)) ->
         Extend.Register p id (AMsg (Ptr e) v) = Fatal FatalTooMany p)).
Proof.
  split; [|split].
  - intros p id e v Hnew. split; intros Hsz.
    + rewrite V1_Register_fresh by done. eexists. split; [done|].
      simpl. by rewrite map_size_insert_None.
    + by apply V1_Register_full.
  - intros ops p Hrun. apply V1_reachable_wf in Hrun.
    pose proof (wf_size p Hrun). unfold MaxUint16 in *. lia.
  - intros p id e v Hnew. split; intros Hsz.
    + rewrite Extend_Register_fresh by done. eauto.
    + by apply Extend_Register_full.
Qed.

End Binding.

(** ** Unmarshal of what Marshal wrote *)

Section Roundtrip.
Context `{Proto}.

Lemma V1_Unmarshal_typed p id e i data rest :
  id < 65536 ->
  V1.typeID p !! id = Some (Some (Ptr e)) ->
  V1.msgInfo p !! Some (Ptr e) = Some i ->
  V1.MsgInfoV1.msgType i = Some (Ptr e) ->
  V1.MsgInfoV1.msgRawHandler i = None ->
  data = (if V1.littleEndian p
          then LittleEndian.PutUint16 id
          else BigEndian.PutUint16 id) ++ rest ->
  V1.Unmarshal p data
  = ([EvProtoUnmarshal rest (fresh e)],
     Value (Some (AMsg (Ptr e) (fst (proto_Unmarshal rest (Ptr e) (zero e)))),
            ErrProto <$> snd (proto_Unmarshal rest (Ptr e) (zero e)))).
Proof.
  intros Hid Ht Hi Hty Hraw ->. unfold V1.Unmarshal.
  pose proof (header_PutUint16 (V1.littleEndian p) id rest Hid) as Hhd.
  unfold header in Hhd. rewrite Hhd.
  replace (length _ <? 2)%nat with false by (by destruct (V1.littleEndian p)).
  replace (drop 2 _) with rest by (by destruct (V1.littleEndian p)).
  unfold fresh. run_eff. rewrite Ht, Hi. simpl.
  rewrite Hraw, Hty. simpl.
  by destruct (proto_Unmarshal rest (Ptr e) (zero e)).
Qed.

Lemma Extend_Unmarshal_typed p id e i data rest :
  id < 65536 ->
  Extend.msgInfo p !! id = Some i ->
  Extend.MsgInfo.msgType i = Some (Ptr e) ->
  Extend.MsgInfo.msgRawHandler i = None ->
  data = (if Extend.littleEndian p
          then LittleEndian.PutUint16 id
          else BigEndian.PutUint16 id) ++ rest ->
  Extend.Unmarshal p data
  = ([EvProtoUnmarshal rest (fresh e)],
     Value (Some (AMsg (Ptr e) (fst (proto_Unmarshal rest (Ptr e) (zero e)))),
            ErrProto <$> snd (proto_Unmarshal rest (Ptr e) (zero e)))).
Proof.
  intros Hid Hi Hty Hraw ->. unfold Extend.Unmarshal.
  pose proof (header_PutUint16 (Extend.littleEndian p) id rest Hid) as Hhd.
  unfold header in Hhd. rewrite Hhd.
  replace (length _ <? 2)%nat with false by (by destruct (Extend.littleEndian p)).
  replace (drop 2 _) with rest by (by destruct (Extend.littleEndian p)).
  unfold fresh. run_eff. rewrite Hi.
  rewrite Hraw, Hty. simpl.
  by destruct (proto_Unmarshal rest (Ptr e) (zero e)).
Qed.

(** C1, as the code has it: take a schema [Ptr e] registered under [id],
    with [id] bound to that schema on the decode side and no raw handler
    attached, and a serializer that writes the fresh instance without error
    and reads it back.  Then [Marshal] of the fresh instance returns two
    segments, and [Unmarshal] of their concatenation, on the same
    processor, returns the fresh instance and no error. *)
Theorem C1_Unmarshal_of_Marshal_fresh (e : rtype) (id : uint16) (data : list byte) :
  id < 65536 ->
  proto_Marshal (Ptr e) (zero e) = (data, None) ->
  proto_Unmarshal data (Ptr e) (zero e) = (zero e, None) ->
  (forall ops p,
      V1.run V1.NewMsgIdProcessor ops = Ok p ->
      V1.msgID p !! Some (Ptr e) = Some id ->
      V1.typeID p !! id = Some (Some (Ptr e)) ->
      (i ← V1_info_of_id p id; V1.MsgInfoV1.msgRawHandler i) = None ->
      exists segs,
        V1.Marshal p (fresh e) = ([EvProtoMarshal (fresh e)], Value (Some segs, None)) /\
        V1.Unmarshal p (concat segs)
        = ([EvProtoUnmarshal data (fresh e)], Value (Some (fresh e), None))) /\
  (forall p i,
      Extend.msgID p !! Some (Ptr e) = Some id ->
      Extend.msgInfo p !! id = Some i ->
      Extend.MsgInfo.msgType i = Some (Ptr e) ->
      Extend.MsgInfo.msgRawHandler i = None ->
      exists segs,
        Extend.Marshal p (fresh e) = ([EvProtoMarshal (fresh e)], Value (Some segs, None)) /\
        Extend.Unmarshal p (concat segs)
        = ([EvProtoUnmarshal data (fresh e)], Value (Some (fresh e), None))).
Proof.
  intros Hid HM HU. split.
  - intros ops p Hrun Hreg Hdec Hraw. apply V1_reachable_wf in Hrun as Hwf.
    destruct (wf_msgID p Hwf _ _ Hreg) as [[i Hi] _].
    destruct (wf_info p Hwf _ _ Hi) as (Hty & Hid' & _).
    assert (V1.MsgInfoV1.msgID i = id) as Hidi by congruence.
    unfold V1_info_of_id in Hraw. rewrite Hdec in Hraw. simpl in Hraw.
    rewrite Hi in Hraw. simpl in Hraw.
    eexists. split.
    + unfold fresh. rewrite (V1_Marshal_registered p _ _ i Hi).
      rewrite HM, Hidi. reflexivity.
    + rewrite (V1_Unmarshal_typed p id e i _ data Hid Hdec Hi Hty Hraw).
      * by rewrite HU.
      * simpl. by rewrite app_nil_r.
  - intros p i Hreg Hi Hty Hraw. eexists. split.
    + unfold fresh. rewrite (Extend_Marshal_registered p _ _ id Hreg).
      rewrite HM. reflexivity.
    + rewrite (Extend_Unmarshal_typed p id e i _ data Hid Hi Hty Hraw).
      * by rewrite HU.
      * simpl. by rewrite app_nil_r.
Qed.

End Roundtrip.

(** ** Further properties of the configuration calls *)

Section Configuration.
Context `{Proto}.

Lemma TypeOf_Ptr msg e : TypeOf msg = Some (Ptr e) -> exists v, msg = AMsg (Ptr e) v.
Proof. destruct msg; simpl; intros [= ?]; subst; eauto. Qed.

Lemma Extend_wf_empty p :
  Extend.msgInfo p = ∅ -> Extend.msgID p = ∅ -> Extend_wf p.
Proof.
  intros Hi Hm. split.
  - intros k i. by rewrite Hi, lookup_empty.
  - intros k i. by rewrite Hi, lookup_empty.
  - intros t id. by rewrite Hm, lookup_empty.
Qed.

Lemma Extend_insert_info_wf p k i f :
  Extend_wf p ->
  Extend.msgInfo p !! k = Some i ->
  Extend.MsgInfo.msgType (f i) = Extend.MsgInfo.msgType i ->
  Extend.MsgInfo.msgID (f i) = Extend.MsgInfo.msgID i ->
  Extend_wf (Extend.mkProcessor (Extend.littleEndian p)
               (<[k := f i]> (Extend.msgInfo p)) (Extend.msgID p)).
Proof.
  intros Hwf Hi Hty Hid. split; simpl.
  - intros k' i'. rewrite lookup_insert. case_decide as Hd.
    + intros _. subst k'. by apply (ewf_key p Hwf k i).
    + by apply (ewf_key p Hwf).
  - intros k' i'. rewrite lookup_insert. case_decide as Hd.
    + intros [= <-]. rewrite Hty, Hid. by apply (ewf_info p Hwf k i).
    + by apply (ewf_info p Hwf).
  - by apply (ewf_msgID p Hwf).
Qed.

Lemma Extend_step_wf p o p' : Extend_wf p -> Extend.step p o = Ok p' -> Extend_wf p'.
Proof.
  intros Hwf.
  assert (Hupd : forall id f,
            (forall i, Extend.MsgInfo.msgType (f i) = Extend.MsgInfo.msgType i) ->
            (forall i, Extend.MsgInfo.msgID (f i) = Extend.MsgInfo.msgID i) ->
            Extend.update_info p id f = Ok p' -> Extend_wf p').
  { intros id f Hty Hid. unfold Extend.update_info.
    destruct (Extend.msgInfo p !! id) as [i|] eqn:Ei; [|done]. intros [= <-].
    by apply Extend_insert_info_wf. }
  destruct o as [id msg|msg h|msg r|id h|b]; simpl.
  - intros HR. apply Extend_Register_Ok in HR as (e & Et & Ei & Hsz & ->).
    split; simpl.
    + intros k i. rewrite lookup_insert. case_decide as Hd; [done|].
      by apply (ewf_key p Hwf).
    + intros k i. rewrite lookup_insert. case_decide as Hd.
      * intros [= <-]. simpl. exists e. by rewrite lookup_insert_eq.
      * intros Hi. by rewrite (ewf_key p Hwf k i Hi) in Hd.
    + intros t id'. rewrite lookup_insert. case_decide as Hd.
      * intros _. eauto.
      * by apply (ewf_msgID p Hwf).
  - unfold Extend.SetHandler. destruct (Extend.msgID p !! TypeOf msg); [|done].
    by apply Hupd.
  - unfold Extend.SetRouter. destruct (Extend.msgID p !! TypeOf msg); [|done].
    by apply Hupd.
  - unfold Extend.SetRawHandler.
    destruct (Extend.msgInfo p !! id) as [i|] eqn:Ei; [|done]. intros [= <-].
    by apply (Extend_insert_info_wf p id i
                (fun i => Extend.MsgInfo.with_msgRawHandler i h)).
  - unfold Extend.SetByteOrder. intros [= <-]. by destruct Hwf.
Qed.

Lemma Extend_run_wf ops : forall p p',
  Extend_wf p -> Extend.run p ops = Ok p' -> Extend_wf p'.
Proof.
  induction ops as [|o ops IH]; intros p p' Hwf; simpl.
  - by intros [= <-].
  - destruct (Extend.step p o) as [p1| |] eqn:Es; try done.
    apply IH. by eapply Extend_step_wf.
Qed.



(** X2: on a configured processor [Marshal] never panics.  For a message
    whose schema has no ID it returns no segments and the not-registered
    error, and proto.Marshal is not called.  For a message whose schema has
    the ID [id] it calls proto.Marshal once and returns the header of [id]
    in the byte order of the processor, then the bytes that proto.Marshal
    gave, together with the error of proto.Marshal as it is: the two
    segments are returned even when serialization failed. *)
Theorem X2_Marshal_configured (msg : any) :
  (forall ops p,
      V1.run V1.NewMsgIdProcessor ops = Ok p ->
      (V1.msgID p !! TypeOf msg = None ->
       V1.Marshal p msg = ([], Value (None, Some (ErrMarshalNotRegistered (TypeOf msg))))) /\
      (forall id, V1.msgID p !! TypeOf msg = Some id ->
         exists t v, msg = AMsg t v /\
           V1.Marshal p msg
           = ([EvProtoMarshal msg],
              Value (Some [if V1.littleEndian p
                           then LittleEndian.PutUint16 id
                           else BigEndian.PutUint16 id;
                           fst (proto_Marshal t v)],
                     ErrProto <$> snd (proto_Marshal t v))))) /\
  (forall ops q0 q,
      Extend.msgInfo q0 = ∅ -> Extend.msgID q0 = ∅ ->
      Extend.run q0 ops = Ok q ->
      (Extend.msgID q !! TypeOf msg = None ->
       Extend.Marshal q msg = ([], Value (None, Some (ErrMarshalNotRegistered (TypeOf msg))))) /\
      (forall id, Extend.msgID q !! TypeOf msg = Some id ->
         exists t v, msg = AMsg t v /\
           Extend.Marshal q msg
           = ([EvProtoMarshal msg],
              Value (Some [if Extend.littleEndian q
                           then LittleEndian.PutUint16 id
                           else BigEndian.PutUint16 id;
                           fst (proto_Marshal t v)],
                     ErrProto <$> snd (proto_Marshal t v))))).
Proof.
  split.
  - intros ops p Hrun. apply V1_reachable_wf in Hrun as Hwf. split.
    + intros Hnone. unfold V1.Marshal.
      destruct (V1.msgInfo p !! TypeOf msg) as [i|] eqn:Ei; [|done].
      destruct (wf_info p Hwf _ _ Ei) as (_ & Hid & _). congruence.
    + intros id Hid. destruct (wf_msgID p Hwf _ _ Hid) as [[i Hi] _].
      destruct (wf_info p Hwf _ _ Hi) as (_ & Hid' & e & Et).
      destruct (TypeOf_Ptr msg e Et) as [v ->]. exists (Ptr e), v. split; [done|].
      simpl in Hi. rewrite (V1_Marshal_registered p _ _ i Hi).
      simpl in Hid, Hid'. by replace (V1.MsgInfoV1.msgID i) with id by congruence.
  - intros ops q0 q Hi0 Hm0 Hrun.
    pose proof (Extend_run_wf ops q0 q (Extend_wf_empty q0 Hi0 Hm0) Hrun) as Hwf. split.
    + intros Hnone. unfold Extend.Marshal. by rewrite Hnone.
    + intros id Hid. destruct (ewf_msgID q Hwf _ _ Hid) as [e Et].
      destruct (TypeOf_Ptr msg e Et) as [v ->]. exists (Ptr e), v. split; [done|].
      by apply Extend_Marshal_registered.
Qed.

Lemma V1_Unmarshal_typed_wf p data k e :
  V1_wf p ->
  header (V1.littleEndian p) data = Some k ->
  V1.typeID p !! k = Some (Some (Ptr e)) ->
  (i ← V1_info_of_id p k; V1.MsgInfoV1.msgRawHandler i) = None ->
  V1.Unmarshal p data
  = ([EvProtoUnmarshal (drop 2 data) (fresh e)],
     Value (Some (AMsg (Ptr e) (fst (proto_Unmarshal (drop 2 data) (Ptr e) (zero e)))),
            ErrProto <$> snd (proto_Unmarshal (drop 2 data) (Ptr e) (zero e)))).
Proof.
  intros Hwf Hk Ht Hraw.
  pose proof (wf_typeID p Hwf _ _ Ht) as Hid.
  destruct (wf_msgID p Hwf _ _ Hid) as [[i Hi] _].
  destruct (wf_info p Hwf _ _ Hi) as (Hty & _ & _).
  unfold V1_info_of_id in Hraw. rewrite Ht in Hraw. simpl in Hraw.
  rewrite Hi in Hraw. simpl in Hraw.
  destruct (header_Some_length _ _ _ Hk) as (b0 & b1 & rest & ->).
  unfold V1.Unmarshal. unfold header in Hk. rewrite Hk.
  unfold fresh. run_eff. rewrite Ht, Hi. simpl. rewrite Hraw, Hty. simpl.
  by destruct (proto_Unmarshal _ (Ptr e) (zero e)).
Qed.

(** X3: on a configured [ProcessorV1], a frame whose header ID is bound to
    the schema [Ptr e] and has no raw handler is decoded into a fresh
    instance of [Ptr e]: [Unmarshal] calls proto.Unmarshal once, on the
    bytes after the header and the fresh instance, and returns the instance
    as that call left it together with the error of the call as it is. *)
Theorem X3_Unmarshal_typed_configured (ops : list V1.op) (p : V1.ProcessorV1)
    (data : list byte) (k : uint16) (e : rtype) :
  V1.run V1.NewMsgIdProcessor ops = Ok p ->
  header (V1.littleEndian p) data = Some k ->
  V1.typeID p !! k = Some (Some (Ptr e)) ->
  (i ← V1_info_of_id p k; V1.MsgInfoV1.msgRawHandler i) = None ->
  V1.Unmarshal p data
  = ([EvProtoUnmarshal (drop 2 data) (fresh e)],
     Value (Some (AMsg (Ptr e) (fst (proto_Unmarshal (drop 2 data) (Ptr e) (zero e)))),
            ErrProto <$> snd (proto_Unmarshal (drop 2 data) (Ptr e) (zero e)))).
Proof.
  intros Hrun. apply V1_Unmarshal_typed_wf. by eapply V1_reachable_wf.
Qed.

Lemma V1_step_typeID p o p' k :
  V1_registers_id k o = false ->
  V1.step p o = Ok p' -> V1.typeID p' !! k = V1.typeID p !! k.
Proof.
  assert (Hupd : forall f t, V1.update_info p t f = Ok p' ->
            V1.typeID p' = V1.typeID p).
  { intros f t. unfold V1.update_info.
    destruct (V1.msgInfo p !! t); [|done]. by intros [= <-]. }
  destruct o as [id msg|msg h|msg r|id h|b]; simpl; intros Hk.
  - intros HR. apply V1_Register_Ok in HR as (e & _ & _ & _ & ->). simpl.
    apply N.eqb_neq in Hk. by rewrite lookup_insert_ne.
  - unfold V1.SetHandler. destruct (V1.msgID p !! TypeOf msg); [|done].
    intros Hu. by rewrite (Hupd _ _ Hu).
  - unfold V1.SetRouter. destruct (V1.msgID p !! TypeOf msg); [|done].
    intros Hu. by rewrite (Hupd _ _ Hu).
  - unfold V1.SetRawHandler. destruct (V1.typeID p !! id); [|done].
    intros Hu. by rewrite (Hupd _ _ Hu).
  - by intros [= <-].
Qed.

Lemma V1_run_typeID ops k : forall p p',
  forallb (fun o => negb (V1_registers_id k o)) ops = true ->
  V1.run p ops = Ok p' -> V1.typeID p' !! k = V1.typeID p !! k.
Proof.
  induction ops as [|o ops IH]; intros p p'; simpl.
  - by intros _ [= <-].
  - intros [Ho Hops]%andb_true_iff.
    destruct (V1.step p o) as [p1| |] eqn:Es; try done.
    intros Hrun. rewrite (IH p1 p' Hops Hrun).
    apply (V1_step_typeID p o p1 k); [|done]. by apply negb_true_iff.
Qed.

(** X4: on a [ProcessorV1] configured without any [Register] under the ID
    [k], [Unmarshal] of every frame whose header reads [k] returns no
    message and the error that the ID [k] is not registered, and makes no
    call. *)
Theorem X4_Unmarshal_ID_never_registered (ops : list V1.op) (p : V1.ProcessorV1)
    (data : list byte) (k : uint16) :
  forallb (fun o => negb (V1_registers_id k o)) ops = true ->
  V1.run V1.NewMsgIdProcessor ops = Ok p ->
  header (V1.littleEndian p) data = Some k ->
  V1.Unmarshal p data = ([], Value (None, Some (ErrUnmarshalIDNotRegistered k))).
Proof.
  intros Hops Hrun Hk.
  pose proof (V1_run_typeID ops k _ _ Hops Hrun) as Ht. simpl in Ht.
  rewrite lookup_empty in Ht.
  destruct (header_Some_length _ _ _ Hk) as (b0 & b1 & rest & ->).
  unfold V1.Unmarshal. unfold header in Hk. rewrite Hk. run_eff. by rewrite Ht.
Qed.

(** X5: on a configured processor [Unmarshal] never panics, whatever the
    bytes: it returns, after at most one call, which is a call of
    proto.Unmarshal. *)
Theorem X5_Unmarshal_never_panics (data : list byte) :
  (forall ops p,
      V1.run V1.NewMsgIdProcessor ops = Ok p ->
      (exists r, outcome_of (V1.Unmarshal p data) = Value r) /\
      (trace (V1.Unmarshal p data) = [] \/
       exists msg, trace (V1.Unmarshal p data) = [EvProtoUnmarshal (drop 2 data) msg])) /\
  (forall ops q0 q,
      Extend.msgInfo q0 = ∅ -> Extend.msgID q0 = ∅ ->
      Extend.run q0 ops = Ok q ->
      (exists r, outcome_of (Extend.Unmarshal q data) = Value r) /\
      (trace (Extend.Unmarshal q data) = [] \/
       exists msg, trace (Extend.Unmarshal q data) = [EvProtoUnmarshal (drop 2 data) msg])).
Proof.
  split.
  - intros ops p Hrun. apply V1_reachable_wf in Hrun as Hwf.
    unfold V1.Unmarshal.
    destruct data as [|b0 [|b1 rest]]; [simpl; eauto..|].
    replace (length (b0 :: b1 :: rest) <? 2)%nat with false by done.
    assert (exists k, (if V1.littleEndian p
                       then LittleEndian.Uint16 (b0 :: b1 :: rest)
                       else BigEndian.Uint16 (b0 :: b1 :: rest)) = Some k) as [k ->]
      by (destruct (V1.littleEndian p); simpl; eauto).
    run_eff.
    destruct (V1.typeID p !! k) as [t|] eqn:Et; [|simpl; eauto].
    pose proof (wf_typeID p Hwf _ _ Et) as Hid.
    destruct (wf_msgID p Hwf _ _ Hid) as [[i Hi] _].
    destruct (wf_info p Hwf _ _ Hi) as (Hty & _ & e & ->).
    rewrite Hi. simpl.
    destruct (V1.MsgInfoV1.msgRawHandler i); [simpl; eauto|].
    rewrite Hty. simpl.
    destruct (proto_Unmarshal _ (Ptr e) (zero e)). simpl. eauto.
  - intros ops q0 q Hi0 Hm0 Hrun.
    pose proof (Extend_run_wf ops q0 q (Extend_wf_empty q0 Hi0 Hm0) Hrun) as Hwf.
    unfold Extend.Unmarshal.
    destruct data as [|b0 [|b1 rest]]; [simpl; eauto..|].
    replace (length (b0 :: b1 :: rest) <? 2)%nat with false by done.
    assert (exists k, (if Extend.littleEndian q
                       then LittleEndian.Uint16 (b0 :: b1 :: rest)
                       else BigEndian.Uint16 (b0 :: b1 :: rest)) = Some k) as [k ->]
      by (destruct (Extend.littleEndian q); simpl; eauto).
    run_eff.
    destruct (Extend.msgInfo q !! k) as [i|] eqn:Ei; [|simpl; eauto].
    destruct (ewf_info q Hwf _ _ Ei) as (e & Hty & _).
    destruct (Extend.MsgInfo.msgRawHandler i); [simpl; eauto|].
    rewrite Hty. simpl.
    destruct (proto_Unmarshal _ (Ptr e) (zero e)). simpl. eauto.
Qed.


Lemma V1_Route_raw_registered p m userData t i :
  V1.typeID p !! MsgRaw.msgID m = Some t ->
  V1.msgInfo p !! t = Some i ->
  V1.Route p (ARaw m) userData
  = (raw_call (V1.MsgInfoV1.msgRawHandler i) m userData, Value None).
Proof.
  intros Ht Hi. unfold V1.Route. rewrite Ht, Hi. run_eff.
  by destruct (V1.MsgInfoV1.msgRawHandler i).
Qed.

(** X6: on a configured [ProcessorV1], [Route] never panics and never
    calls the serializer.  For a message that is not a [MsgRaw] it returns
    the not-registered error, having called nothing, when the schema has no
    ID, and otherwise nil after the call of the handler, if one is attached,
    followed by the submission to the router, if one is attached.  For a
    [MsgRaw] it returns the ID-not-registered error, having called nothing,
    when the ID is not bound, and nil otherwise. *)
Theorem X6_Route_configured (ops : list V1.op) (p : V1.ProcessorV1) (msg userData : any) :
  V1.run V1.NewMsgIdProcessor ops = Ok p ->
  (exists err, outcome_of (V1.Route p msg userData) = Value err) /\
  forallb (fun e => negb (is_proto e)) (trace (V1.Route p msg userData)) = true /\
  (is_raw msg = false ->
     (V1.msgID p !! TypeOf msg = None ->
      V1.Route p msg userData = ([], Value (Some (ErrRouteNotRegistered (TypeOf msg))))) /\
     (is_Some (V1.msgID p !! TypeOf msg) ->
      exists i, V1.msgInfo p !! TypeOf msg = Some i /\
        V1.Route p msg userData
        = (typed_calls (V1.MsgInfoV1.msgHandler i) (V1.MsgInfoV1.msgRouter i) msg userData,
           Value None))) /\
  (forall m, msg = ARaw m ->
     (V1.typeID p !! MsgRaw.msgID m = None ->
      V1.Route p msg userData
      = ([], Value (Some (ErrRouteIDNotRegistered (MsgRaw.msgID m))))) /\
     (is_Some (V1.typeID p !! MsgRaw.msgID m) ->
      outcome_of (V1.Route p msg userData) = Value None)).
Proof.
  intros Hrun. apply V1_reachable_wf in Hrun as Hwf.
  assert (Htyped : is_raw msg = false ->
     (V1.msgID p !! TypeOf msg = None ->
      V1.Route p msg userData = ([], Value (Some (ErrRouteNotRegistered (TypeOf msg))))) /\
     (is_Some (V1.msgID p !! TypeOf msg) ->
      exists i, V1.msgInfo p !! TypeOf msg = Some i /\
        V1.Route p msg userData
        = (typed_calls (V1.MsgInfoV1.msgHandler i) (V1.MsgInfoV1.msgRouter i) msg userData,
           Value None))).
  { intros Hraw. split.
    - intros Hnone. destruct msg; try done; unfold V1.Route; by rewrite Hnone.
    - intros [id Hid]. destruct (wf_msgID p Hwf _ _ Hid) as [[i Hi] _].
      exists i. split; [done|]. apply V1_Route_typed; [done|].
      unfold V1_info_of_type. by rewrite Hid. }
  assert (Hrawm : forall m, msg = ARaw m ->
     (V1.typeID p !! MsgRaw.msgID m = None ->
      V1.Route p msg userData
      = ([], Value (Some (ErrRouteIDNotRegistered (MsgRaw.msgID m))))) /\
     (is_Some (V1.typeID p !! MsgRaw.msgID m) ->
      exists i, V1.Route p msg userData
                = (raw_call (V1.MsgInfoV1.msgRawHandler i) m userData, Value None))).
  { intros m ->. split.
    - intros Hnone. unfold V1.Route. by rewrite Hnone.
    - intros [t Ht]. pose proof (wf_typeID p Hwf _ _ Ht) as Hid.
      destruct (wf_msgID p Hwf _ _ Hid) as [[i Hi] _].
      exists i. by apply V1_Route_raw_registered with t. }
  split; [|split; [|split]].
  - destruct (is_raw msg) eqn:Hraw.
    + destruct msg; try done. destruct (Hrawm m eq_refl) as [Hn Hs].
      destruct (V1.typeID p !! MsgRaw.msgID m) eqn:Et.
      * destruct Hs as [i ->]; eauto.
      * rewrite Hn; eauto.
    + destruct (Htyped eq_refl) as [Hn Hs].
      destruct (V1.msgID p !! TypeOf msg) eqn:Et.
      * destruct Hs as (i & _ & ->); eauto.
      * rewrite Hn; eauto.
  - destruct (is_raw msg) eqn:Hraw.
    + destruct msg; try done. destruct (Hrawm m eq_refl) as [Hn Hs].
      destruct (V1.typeID p !! MsgRaw.msgID m) eqn:Et.
      * destruct Hs as [i ->]; eauto. simpl.
        by destruct (V1.MsgInfoV1.msgRawHandler i).
      * by rewrite Hn.
    + destruct (Htyped eq_refl) as [Hn Hs].
      destruct (V1.msgID p !! TypeOf msg) eqn:Et.
      * destruct Hs as (i & _ & ->); eauto. simpl. unfold typed_calls.
        by destruct (V1.MsgInfoV1.msgHandler i), (V1.MsgInfoV1.msgRouter i).
      * by rewrite Hn.
  - done.
  - intros m Hm. destruct (Hrawm m Hm) as [Hn Hs]. split; [done|].
    intros Hsome. by destruct (Hs Hsome) as [i ->].
Qed.

(** X7: on a configured [ProcessorV1], whatever message [Unmarshal]
    returns is one that [Route] knows: [Route] of it returns nil, not a
    not-registered error. *)
Theorem X7_Route_accepts_what_Unmarshal_returns (ops : list V1.op) (p : V1.ProcessorV1)
    (data : list byte) (msg userData : any) (err : option error) :
  V1.run V1.NewMsgIdProcessor ops = Ok p ->
  outcome_of (V1.Unmarshal p data) = Value (Some msg, err) ->
  outcome_of (V1.Route p msg userData) = Value None.
Proof.
  intros Hrun. apply V1_reachable_wf in Hrun as Hwf.
  unfold V1.Unmarshal.
  destruct data as [|b0 [|b1 rest]]; [done..|].
  replace (length (b0 :: b1 :: rest) <? 2)%nat with false by done.
  assert (exists k, (if V1.littleEndian p
                     then LittleEndian.Uint16 (b0 :: b1 :: rest)
                     else BigEndian.Uint16 (b0 :: b1 :: rest)) = Some k) as [k ->]
    by (destruct (V1.littleEndian p); simpl; eauto).
  run_eff.
  destruct (V1.typeID p !! k) as [t|] eqn:Et; [|done].
  pose proof (wf_typeID p Hwf _ _ Et) as Hid.
  destruct (wf_msgID p Hwf _ _ Hid) as [[i Hi] _].
  destruct (wf_info p Hwf _ _ Hi) as (Hty & _ & e & ->).
  rewrite Hi. simpl.
  destruct (V1.MsgInfoV1.msgRawHandler i) eqn:Hraw; simpl.
  - intros [= <- _].
    by rewrite (V1_Route_raw_registered p _ userData (Some (Ptr e)) i).
  - rewrite Hty. simpl.
    destruct (proto_Unmarshal _ (Ptr e) (zero e)) as [v' perr]. simpl.
    intros [= <- _].
    rewrite (V1_Route_typed p _ userData i); [done..|].
    unfold V1_info_of_type. simpl. by rewrite Hid.
Qed.

(** X11: on a configured [ProcessorV1] the three attaching calls never
    panic: [SetHandler] and [SetRouter] end in [log.Fatal], with the
    processor as it was, when the schema of the message has no ID, and
    return otherwise; [SetRawHandler] ends in [log.Fatal], with the
    processor as it was, when the ID is not bound, and returns otherwise. *)
Theorem X11_attaching_is_fatal_iff_unknown (ops : list V1.op) (p : V1.ProcessorV1) :
  V1.run V1.NewMsgIdProcessor ops = Ok p ->
  (forall msg h,
      (V1.msgID p !! TypeOf msg = None ->
       V1.SetHandler p msg h = Fatal (FatalNotRegistered (TypeOf msg)) p) /\
      (is_Some (V1.msgID p !! TypeOf msg) -> exists p', V1.SetHandler p msg h = Ok p')) /\
  (forall msg r,
      (V1.msgID p !! TypeOf msg = None ->
       V1.SetRouter p msg r = Fatal (FatalNotRegistered (TypeOf msg)) p) /\
      (is_Some (V1.msgID p !! TypeOf msg) -> exists p', V1.SetRouter p msg r = Ok p')) /\
  (forall id h,
      (V1.typeID p !! id = None ->
       V1.SetRawHandler p id h = Fatal (FatalIDNotRegistered id) p) /\
      (is_Some (V1.typeID p !! id) -> exists p', V1.SetRawHandler p id h = Ok p')).
Proof.
  intros Hrun. apply V1_reachable_wf in Hrun as Hwf.
  split; [|split].
  - intros msg h. unfold V1.SetHandler, V1.update_info. split.
    + by intros ->.
    + intros [id Hid]. destruct (wf_msgID p Hwf _ _ Hid) as [[i Hi] _].
      rewrite Hid, Hi. eauto.
  - intros msg r. unfold V1.SetRouter, V1.update_info. split.
    + by intros ->.
    + intros [id Hid]. destruct (wf_msgID p Hwf _ _ Hid) as [[i Hi] _].
      rewrite Hid, Hi. eauto.
  - intros id h. unfold V1.SetRawHandler, V1.update_info. split.
    + by intros ->.
    + intros [t Ht]. pose proof (wf_typeID p Hwf _ _ Ht) as Hid.
      destruct (wf_msgID p Hwf _ _ Hid) as [[i Hi] _].
      rewrite Ht, Hi. eauto.
Qed.


Lemma V1_update_info_Ok p t f p' :
  V1.update_info p t f = Ok p' ->
  exists i, V1.msgInfo p !! t = Some i /\
    p' = V1.mkProcessorV1 (V1.littleEndian p) (<[t := f i]> (V1.msgInfo p))
           (V1.msgID p) (V1.typeID p).
Proof.
  unfold V1.update_info. destruct (V1.msgInfo p !! t) as [i|]; [|done].
  intros [= <-]. eauto.
Qed.

Lemma Extend_update_info_Ok p k f p' :
  Extend.update_info p k f = Ok p' ->
  exists i, Extend.msgInfo p !! k = Some i /\
    p' = Extend.mkProcessor (Extend.littleEndian p) (<[k := f i]> (Extend.msgInfo p))
           (Extend.msgID p).
Proof.
  unfold Extend.update_info. destruct (Extend.msgInfo p !! k) as [i|]; [|done].
  intros [= <-]. eauto.
Qed.

(** What [Marshal], [Unmarshal] and [Route] of a [ProcessorV1] do depends on
    a record only through the fields they read. *)
Lemma V1_Marshal_insert p t i i' msg :
  V1.msgInfo p !! t = Some i ->
  V1.MsgInfoV1.msgID i' = V1.MsgInfoV1.msgID i ->
  V1.Marshal (V1.mkProcessorV1 (V1.littleEndian p) (<[t := i']> (V1.msgInfo p))
                (V1.msgID p) (V1.typeID p)) msg
  = V1.Marshal p msg.
Proof.
  intros Hi Hid. unfold V1.Marshal. simpl. rewrite lookup_insert.
  case_decide as Hd; [|done]. subst t. by rewrite Hi, Hid.
Qed.

Lemma V1_Unmarshal_insert p t i i' data :
  V1.msgInfo p !! t = Some i ->
  V1.MsgInfoV1.msgType i' = V1.MsgInfoV1.msgType i ->
  V1.MsgInfoV1.msgRawHandler i' = V1.MsgInfoV1.msgRawHandler i ->
  V1.Unmarshal (V1.mkProcessorV1 (V1.littleEndian p) (<[t := i']> (V1.msgInfo p))
                  (V1.msgID p) (V1.typeID p)) data
  = V1.Unmarshal p data.
Proof.
  intros Hi Hty Hraw. unfold V1.Unmarshal. simpl.
  destruct (length data <? 2)%nat; [done|].
  destruct (if V1.littleEndian p then LittleEndian.Uint16 data else BigEndian.Uint16 data)
    as [k|]; [|done].
  run_eff. destruct (V1.typeID p !! k) as [t'|]; [|done].
  rewrite lookup_insert. case_decide as Hd; [|done]. subst t'.
  rewrite Hi. simpl. by rewrite Hty, Hraw.
Qed.

Lemma V1_Route_raw_insert p t i i' m userData :
  V1.msgInfo p !! t = Some i ->
  V1.MsgInfoV1.msgRawHandler i' = V1.MsgInfoV1.msgRawHandler i ->
  V1.Route (V1.mkProcessorV1 (V1.littleEndian p) (<[t := i']> (V1.msgInfo p))
              (V1.msgID p) (V1.typeID p)) (ARaw m) userData
  = V1.Route p (ARaw m) userData.
Proof.
  intros Hi Hraw. unfold V1.Route. simpl.
  destruct (V1.typeID p !! MsgRaw.msgID m) as [t'|]; [|done].
  rewrite lookup_insert. case_decide as Hd; [|done]. subst t'.
  rewrite Hi. simpl. by rewrite Hraw.
Qed.

Lemma V1_Route_typed_insert_ne p t i' msg userData :
  is_raw msg = false ->
  TypeOf msg <> t ->
  V1.Route (V1.mkProcessorV1 (V1.littleEndian p) (<[t := i']> (V1.msgInfo p))
              (V1.msgID p) (V1.typeID p)) msg userData
  = V1.Route p msg userData.
Proof.
  intros Hraw Hne.
  destruct msg; try done; unfold V1.Route; simpl in *;
    by rewrite lookup_insert_ne.
Qed.

Lemma V1_Route_typed_insert_eq p i' msg userData :
  is_raw msg = false ->
  is_Some (V1.msgID p !! TypeOf msg) ->
  V1.Route (V1.mkProcessorV1 (V1.littleEndian p) (<[TypeOf msg := i']> (V1.msgInfo p))
              (V1.msgID p) (V1.typeID p)) msg userData
  = (typed_calls (V1.MsgInfoV1.msgHandler i') (V1.MsgInfoV1.msgRouter i') msg userData,
     Value None).
Proof.
  intros Hraw [id Hid]. apply V1_Route_typed; [done|].
  unfold V1_info_of_type. simpl. by rewrite Hid, lookup_insert_eq.
Qed.

(** X8: after [SetHandler(msg, h)] of a [ProcessorV1] has returned, [Route]
    of any message of the type of [msg] calls [h] (or no handler, if [h] is
    nil) and then submits to the router that the schema had; the handler
    set before is gone.  Nothing else has changed: [Route] of messages of
    other types and of raw messages, [Marshal] and [Unmarshal] do what they
    did before. *)
Theorem X8_SetHandler_last_write_wins (p p' : V1.ProcessorV1) (msg : any) (h : MsgHandler) :
  V1.SetHandler p msg h = Ok p' ->
  (exists i, V1.msgInfo p !! TypeOf msg = Some i /\
     forall msg' userData, is_raw msg' = false -> TypeOf msg' = TypeOf msg ->
       V1.Route p' msg' userData
       = (typed_calls h (V1.MsgInfoV1.msgRouter i) msg' userData, Value None)) /\
  (forall msg' userData, is_raw msg' = false -> TypeOf msg' <> TypeOf msg ->
     V1.Route p' msg' userData = V1.Route p msg' userData) /\
  (forall m userData, V1.Route p' (ARaw m) userData = V1.Route p (ARaw m) userData) /\
  (forall msg', V1.Marshal p' msg' = V1.Marshal p msg') /\
  (forall data, V1.Unmarshal p' data = V1.Unmarshal p data).
Proof.
  unfold V1.SetHandler.
  destruct (V1.msgID p !! TypeOf msg) as [id|] eqn:Hid; [|done].
  intros (i & Hi & ->)%V1_update_info_Ok.
  split; [|split; [|split; [|split]]].
  - exists i. split; [done|]. intros msg' userData Hraw Hty. rewrite <- Hty.
    rewrite V1_Route_typed_insert_eq; [done..|]. rewrite Hty. eauto.
  - intros msg' userData Hraw Hne. by apply V1_Route_typed_insert_ne.
  - intros m userData. by apply V1_Route_raw_insert with i.
  - intros msg'. by apply V1_Marshal_insert with i.
  - intros data. by apply V1_Unmarshal_insert with i.
Qed.

(** X9: after [SetRouter(msg, r)] of a [ProcessorV1] has returned, [Route]
    of any message of the type of [msg] calls the handler that the schema
    had and then submits to [r] (or to no router, if [r] is nil).  Nothing
    else has changed. *)
Theorem X9_SetRouter_last_write_wins (p p' : V1.ProcessorV1) (msg : any)
    (r : option Server) :
  V1.SetRouter p msg r = Ok p' ->
  (exists i, V1.msgInfo p !! TypeOf msg = Some i /\
     forall msg' userData, is_raw msg' = false -> TypeOf msg' = TypeOf msg ->
       V1.Route p' msg' userData
       = (typed_calls (V1.MsgInfoV1.msgHandler i) r msg' userData, Value None)) /\
  (forall msg' userData, is_raw msg' = false -> TypeOf msg' <> TypeOf msg ->
     V1.Route p' msg' userData = V1.Route p msg' userData) /\
  (forall m userData, V1.Route p' (ARaw m) userData = V1.Route p (ARaw m) userData) /\
  (forall msg', V1.Marshal p' msg' = V1.Marshal p msg') /\
  (forall data, V1.Unmarshal p' data = V1.Unmarshal p data).
Proof.
  unfold V1.SetRouter.
  destruct (V1.msgID p !! TypeOf msg) as [id|] eqn:Hid; [|done].
  intros (i & Hi & ->)%V1_update_info_Ok.
  split; [|split; [|split; [|split]]].
  - exists i. split; [done|]. intros msg' userData Hraw Hty. rewrite <- Hty.
    rewrite V1_Route_typed_insert_eq; [done..|]. rewrite Hty. eauto.
  - intros msg' userData Hraw Hne. by apply V1_Route_typed_insert_ne.
  - intros m userData. by apply V1_Route_raw_insert with i.
  - intros msg'. by apply V1_Marshal_insert with i.
  - intros data. by apply V1_Unmarshal_insert with i.
Qed.

(** X10: after [SetRawHandler(k, h)] with a handler [h] has returned, a
    frame whose header reads [k] goes to [h] undecoded: [Unmarshal] returns
    the [MsgRaw] of [k] and of the bytes after the header without calling
    the serializer, and [Route] of that [MsgRaw] calls [h] once, with [k],
    those bytes and the context, and returns nil.  This holds of both
    processors. *)
Theorem X10_raw_frame_reaches_raw_handler (k : uint16) (h : Func) (data : list byte)
    (userData : any) :
  (forall p p',
      V1.SetRawHandler p k (Some h) = Ok p' ->
      header (V1.littleEndian p') data = Some k ->
      V1.Unmarshal p' data = ([], Value (Some (ARaw (MsgRaw.mk k (drop 2 data))), None)) /\
      V1.Route p' (ARaw (MsgRaw.mk k (drop 2 data))) userData
      = ([EvCall h [AUint16 k; ABytes (drop 2 data); userData]], Value None)) /\
  (forall p p',
      Extend.SetRawHandler p k (Some h) = Ok p' ->
      header (Extend.littleEndian p') data = Some k ->
      Extend.Unmarshal p' data = ([], Value (Some (ARaw (MsgRaw.mk k (drop 2 data))), None)) /\
      Extend.Route p' (ARaw (MsgRaw.mk k (drop 2 data))) userData
      = ([EvCall h [AUint16 k; ABytes (drop 2 data); userData]], Value None)).
Proof.
  split; intros p p'.
  - unfold V1.SetRawHandler.
    destruct (V1.typeID p !! k) as [t|] eqn:Ht; [|done].
    intros (i & Hi & ->)%V1_update_info_Ok Hk. split.
    + apply (V1_Unmarshal_raw _ data k (V1.MsgInfoV1.with_msgRawHandler i (Some h)) h);
        [done| |done].
      unfold V1_info_of_id. simpl. rewrite Ht. simpl. by rewrite lookup_insert_eq.
    + rewrite (V1_Route_raw_registered _ _ userData t
                 (V1.MsgInfoV1.with_msgRawHandler i (Some h))); [done|done|].
      simpl. by rewrite lookup_insert_eq.
  - unfold Extend.SetRawHandler.
    destruct (Extend.msgInfo p !! k) as [i|] eqn:Hi; [|done].
    intros [= <-] Hk. split.
    + apply (Extend_Unmarshal_raw _ data k (Extend.MsgInfo.with_msgRawHandler i (Some h)) h);
        [done| |done].
      unfold Extend_info_of_id. simpl. by rewrite lookup_insert_eq.
    + unfold Extend.Route. simpl. by rewrite lookup_insert_eq.
Qed.


Lemma V1_step_byte_order p o p' :
  V1.step p o = Ok p' ->
  V1.littleEndian p'
  = match o with V1.OpSetByteOrder b => b | _ => V1.littleEndian p end.
Proof.
  destruct o as [id msg|msg h|msg r|id h|b]; simpl.
  - by intros (e & _ & _ & _ & ->)%V1_Register_Ok.
  - unfold V1.SetHandler. destruct (V1.msgID p !! TypeOf msg); [|done].
    by intros (i & _ & ->)%V1_update_info_Ok.
  - unfold V1.SetRouter. destruct (V1.msgID p !! TypeOf msg); [|done].
    by intros (i & _ & ->)%V1_update_info_Ok.
  - unfold V1.SetRawHandler. destruct (V1.typeID p !! id); [|done].
    by intros (i & _ & ->)%V1_update_info_Ok.
  - by intros [= <-].
Qed.

Lemma Extend_step_byte_order p o p' :
  Extend.step p o = Ok p' ->
  Extend.littleEndian p'
  = match o with Extend.OpSetByteOrder b => b | _ => Extend.littleEndian p end.
Proof.
  destruct o as [id msg|msg h|msg r|id h|b]; simpl.
  - by intros (e & _ & _ & _ & ->)%Extend_Register_Ok.
  - unfold Extend.SetHandler. destruct (Extend.msgID p !! TypeOf msg); [|done].
    by intros (i & _ & ->)%Extend_update_info_Ok.
  - unfold Extend.SetRouter. destruct (Extend.msgID p !! TypeOf msg); [|done].
    by intros (i & _ & ->)%Extend_update_info_Ok.
  - unfold Extend.SetRawHandler. destruct (Extend.msgInfo p !! id); [|done].
    by intros [= <-].
  - by intros [= <-].
Qed.

(** X12: the byte order of a processor after a configuration phase is the
    argument of the last [SetByteOrder] of the phase, and the one it had
    before when the phase has no [SetByteOrder]: no other call touches it.
    So [Marshal] then writes the header of a registered schema in that
    order. *)
Theorem X12_byte_order_is_last_SetByteOrder :
  (forall ops p p',
      V1.run p ops = Ok p' ->
      V1.littleEndian p' = V1_byte_order_after ops (V1.littleEndian p) /\
      forall t v i, V1.msgInfo p' !! Some t = Some i ->
        outcome_of (V1.Marshal p' (AMsg t v))
        = Value (Some [if V1_byte_order_after ops (V1.littleEndian p)
                       then LittleEndian.PutUint16 (V1.MsgInfoV1.msgID i)
                       else BigEndian.PutUint16 (V1.MsgInfoV1.msgID i);
                       fst (proto_Marshal t v)],
                 ErrProto <$> snd (proto_Marshal t v))) /\
  (forall ops q q',
      Extend.run q ops = Ok q' ->
      Extend.littleEndian q' = Extend_byte_order_after ops (Extend.littleEndian q) /\
      forall t v id, Extend.msgID q' !! Some t = Some id ->
        outcome_of (Extend.Marshal q' (AMsg t v))
        = Value (Some [if Extend_byte_order_after ops (Extend.littleEndian q)
                       then LittleEndian.PutUint16 id
                       else BigEndian.PutUint16 id;
                       fst (proto_Marshal t v)],
                 ErrProto <$> snd (proto_Marshal t v))).
Proof.
  split.
  - assert (Hle : forall ops p p', V1.run p ops = Ok p' ->
              V1.littleEndian p' = V1_byte_order_after ops (V1.littleEndian p)).
    { induction ops as [|o ops IH]; intros p p'; simpl.
      - by intros [= <-].
      - destruct (V1.step p o) as [p1| |] eqn:Es; try done.
        intros Hrun. rewrite (IH _ _ Hrun). unfold V1_byte_order_after. simpl.
        by rewrite (V1_step_byte_order _ _ _ Es). }
    intros ops p p' Hrun. split; [by apply Hle|].
    intros t v i Hi. rewrite (V1_Marshal_registered p' t v i Hi). simpl.
    by rewrite (Hle _ _ _ Hrun).
  - assert (Hle : forall ops q q', Extend.run q ops = Ok q' ->
              Extend.littleEndian q' = Extend_byte_order_after ops (Extend.littleEndian q)).
    { induction ops as [|o ops IH]; intros q q'; simpl.
      - by intros [= <-].
      - destruct (Extend.step q o) as [q1| |] eqn:Es; try done.
        intros Hrun. rewrite (IH _ _ Hrun). unfold Extend_byte_order_after. simpl.
        by rewrite (Extend_step_byte_order _ _ _ Es). }
    intros ops q q' Hrun. split; [by apply Hle|].
    intros t v id Hi. rewrite (Extend_Marshal_registered q' t v id Hi). simpl.
    by rewrite (Hle _ _ _ Hrun).
Qed.

Lemma V1_step_keeps_id p o p' t id :
  V1_wf p -> V1.step p o = Ok p' ->
  V1.msgID p !! t = Some id -> V1.msgID p' !! t = Some id.
Proof.
  intros Hwf. destruct o as [id' msg|msg h|msg r|id' h|b]; simpl.
  - intros (e & _ & Ei & _ & ->)%V1_Register_Ok Hid. simpl.
    rewrite lookup_insert_ne; [done|]. intros <-.
    destruct (wf_msgID p Hwf _ _ Hid) as [[i Hi] _]. congruence.
  - unfold V1.SetHandler. destruct (V1.msgID p !! TypeOf msg); [|done].
    by intros (i & _ & ->)%V1_update_info_Ok.
  - unfold V1.SetRouter. destruct (V1.msgID p !! TypeOf msg); [|done].
    by intros (i & _ & ->)%V1_update_info_Ok.
  - unfold V1.SetRawHandler. destruct (V1.typeID p !! id'); [|done].
    by intros (i & _ & ->)%V1_update_info_Ok.
  - by intros [= <-].
Qed.

Lemma Extend_step_keeps_id p o p' t id :
  Extend.step p o = Ok p' ->
  Extend.msgID p !! t = Some id -> Extend.msgID p' !! t = Some id.
Proof.
  destruct o as [id' msg|msg h|msg r|id' h|b]; simpl.
  - intros (e & _ & Ei & _ & ->)%Extend_Register_Ok Hid. simpl.
    rewrite lookup_insert_ne; [done|]. intros <-. congruence.
  - unfold Extend.SetHandler. destruct (Extend.msgID p !! TypeOf msg); [|done].
    by intros (i & _ & ->)%Extend_update_info_Ok.
  - unfold Extend.SetRouter. destruct (Extend.msgID p !! TypeOf msg); [|done].
    by intros (i & _ & ->)%Extend_update_info_Ok.
  - unfold Extend.SetRawHandler. destruct (Extend.msgInfo p !! id'); [|done].
    by intros [= <-].
  - by intros [= <-].
Qed.

(** X13: registration is permanent.  Once a schema has an ID, it has the
    same ID after any further configuration calls that return, on either
    processor; on a [ProcessorV1] its record is still there and repeats the
    schema and the ID, so [Marshal] keeps writing the same ID for it. *)
Theorem X13_registration_is_permanent (t : Type_) (id : uint16) :
  (forall ops1 p ops2 p',
      V1.run V1.NewMsgIdProcessor ops1 = Ok p ->
      V1.msgID p !! t = Some id ->
      V1.run p ops2 = Ok p' ->
      V1.msgID p' !! t = Some id /\
      exists i, V1.msgInfo p' !! t = Some i /\
                V1.MsgInfoV1.msgType i = t /\ V1.MsgInfoV1.msgID i = id) /\
  (forall q ops q',
      Extend.msgID q !! t = Some id ->
      Extend.run q ops = Ok q' ->
      Extend.msgID q' !! t = Some id).
Proof.
  split.
  - intros ops1 p ops2 p' Hrun1 Hid Hrun2.
    apply V1_reachable_wf in Hrun1 as Hwf.
    assert (Hkeep : forall ops p p', V1_wf p -> V1.run p ops = Ok p' ->
              V1.msgID p !! t = Some id -> V1.msgID p' !! t = Some id).
    { clear. induction ops as [|o ops IH]; intros p p' Hwf; simpl.
      - by intros [= <-].
      - destruct (V1.step p o) as [p1| |] eqn:Es; try done.
        intros Hrun Hid. apply (IH p1); [by eapply V1_step_wf|done|].
        by eapply V1_step_keeps_id. }
    pose proof (Hkeep _ _ _ Hwf Hrun2 Hid) as Hid'. split; [done|].
    pose proof (V1_run_wf _ _ _ Hwf Hrun2) as Hwf'.
    destruct (wf_msgID p' Hwf' _ _ Hid') as [[i Hi] _].
    destruct (wf_info p' Hwf' _ _ Hi) as (Hty & Hii & _).
    exists i. repeat split; [done..|congruence].
  - intros q ops. revert q. induction ops as [|o ops IH]; intros q q' Hid; simpl.
    + by intros [= <-].
    + destruct (Extend.step q o) as [q1| |] eqn:Es; try done.
      apply IH. by eapply Extend_step_keeps_id.
Qed.

(** X14: on a configured [ProcessorV1], a [Register] that returns leaves
    the other schemas as they were: [Marshal] and [Route] of a message of
    another type, [Unmarshal] of a frame whose header reads another ID and
    [Route] of a [MsgRaw] of another ID do what they did before. *)
Theorem X14_Register_leaves_the_others (ops : list V1.op) (p p' : V1.ProcessorV1)
    (id : uint16) (msg : any) :
  V1.run V1.NewMsgIdProcessor ops = Ok p ->
  V1.Register p id msg = Ok p' ->
  (forall msg', TypeOf msg' <> TypeOf msg -> V1.Marshal p' msg' = V1.Marshal p msg') /\
  (forall msg' userData, is_raw msg' = false -> TypeOf msg' <> TypeOf msg ->
     V1.Route p' msg' userData = V1.Route p msg' userData) /\
  (forall data k, header (V1.littleEndian p) data = Some k -> k <> id ->
     V1.Unmarshal p' data = V1.Unmarshal p data) /\
  (forall m userData, MsgRaw.msgID m <> id ->
     V1.Route p' (ARaw m) userData = V1.Route p (ARaw m) userData).
Proof.
  intros Hrun HR. apply V1_reachable_wf in Hrun as Hwf.
  apply V1_Register_Ok in HR as (e & Et & Ei & _ & ->). rewrite Et.
  assert (Hother : forall k t, k <> id -> V1.typeID p !! k = Some t -> t <> Some (Ptr e)).
  { intros k t _ Ht ->. pose proof (wf_typeID p Hwf _ _ Ht) as Hid.
    destruct (wf_msgID p Hwf _ _ Hid) as [[i Hi] _]. congruence. }
  split; [|split; [|split]].
  - intros msg' Hne. unfold V1.Marshal. simpl. by rewrite lookup_insert_ne.
  - intros msg' userData Hraw Hne.
    destruct msg'; try done; unfold V1.Route; simpl in *;
      by rewrite !lookup_insert_ne.
  - intros data k Hk Hne.
    destruct (header_Some_length _ _ _ Hk) as (b0 & b1 & rest & ->).
    unfold V1.Unmarshal. unfold header in Hk. simpl V1.littleEndian. rewrite Hk.
    run_eff. rewrite lookup_insert_ne by done.
    destruct (V1.typeID p !! k) as [t|] eqn:Ht; [|done].
    rewrite lookup_insert_ne; [done|]. intros <-. by eapply Hother.
  - intros m userData Hne. unfold V1.Route. simpl.
    rewrite lookup_insert_ne by done.
    destruct (V1.typeID p !! MsgRaw.msgID m) as [t|] eqn:Ht; [|done].
    rewrite lookup_insert_ne; [done|]. intros <-. by eapply Hother.
Qed.


(** X15: on a configured [ProcessorV1], [Range] visits every registered
    schema exactly once, with the ID it has, and nothing else: the visits
    are the pairs (ID, schema) of the encode side, without repetition, as
    many as there are records. *)
Theorem X15_Range_visits_each_schema_once (ops : list V1.op) (p : V1.ProcessorV1) :
  V1.run V1.NewMsgIdProcessor ops = Ok p ->
  (forall id t, (id, t) ∈ V1.Range p <-> V1.msgID p !! t = Some id) /\
  NoDup (V1.Range p) /\
  length (V1.Range p) = size (V1.msgInfo p).
Proof.
  intros Hrun. apply V1_reachable_wf in Hrun as Hwf. unfold V1.Range.
  split; [|split].
  - intros id t. rewrite list_elem_of_fmap. split.
    + intros ([k i] & [= -> ->] & Hin). apply elem_of_map_to_list in Hin.
      simpl. destruct (wf_info p Hwf _ _ Hin) as (Hty & Hid & _). by rewrite Hty.
    + intros Hid. destruct (wf_msgID p Hwf _ _ Hid) as [[i Hi] _].
      destruct (wf_info p Hwf _ _ Hi) as (Hty & Hid' & _).
      exists (t, i). split; [|by apply elem_of_map_to_list].
      simpl. f_equal; congruence.
  - apply NoDup_fmap_2_strong; [|apply NoDup_map_to_list].
    intros [k1 i1] [k2 i2] H1%elem_of_map_to_list H2%elem_of_map_to_list. simpl.
    intros [= Hid Hty].
    destruct (wf_info p Hwf _ _ H1) as (Hty1 & _ & _).
    destruct (wf_info p Hwf _ _ H2) as (Hty2 & _ & _).
    assert (k1 = k2) as -> by congruence. f_equal. congruence.
  - by rewrite length_fmap, length_map_to_list.
Qed.

(** X16: on a [Processor] configured from empty maps, [msgInfo] never holds
    a key other than 0, since [Register] files every record under the key
    that its failed lookup left, which is 0.  So the processor holds at
    most one record, [Range] makes at most one visit, and [Unmarshal] of
    every frame whose header reads an ID other than 0 returns the
    ID-not-registered error. *)
Theorem X16_Extend_records_only_under_0 (ops : list Extend.op) (q0 q : Extend.Processor) :
  Extend.msgInfo q0 = ∅ -> Extend.msgID q0 = ∅ ->
  Extend.run q0 ops = Ok q ->
  (forall k, k <> 0 -> Extend.msgInfo q !! k = None) /\
  (length (Extend.Range q) <= 1)%nat /\
  (forall data k, header (Extend.littleEndian q) data = Some k -> k <> 0 ->
     Extend.Unmarshal q data = ([], Value (None, Some (ErrUnmarshalIDNotRegistered k)))).
Proof.
  intros Hi0 Hm0 Hrun.
  pose proof (Extend_run_wf ops q0 q (Extend_wf_empty q0 Hi0 Hm0) Hrun) as Hwf.
  assert (Hkey : forall k, k <> 0 -> Extend.msgInfo q !! k = None).
  { intros k Hk. destruct (Extend.msgInfo q !! k) as [i|] eqn:Ei; [|done].
    by destruct (Hk (ewf_key q Hwf _ _ Ei)). }
  split; [done|]. split.
  - unfold Extend.Range. rewrite length_fmap, length_map_to_list.
    destruct (Extend.msgInfo q !! 0) as [i|] eqn:E0.
    + assert (Extend.msgInfo q = {[0 := i]}) as ->.
      { apply map_eq. intros k. destruct (decide (k = 0)) as [->|Hk].
        - by rewrite lookup_singleton_eq.
        - rewrite lookup_singleton_ne by done. by apply Hkey. }
      by rewrite map_size_singleton.
    + assert (Extend.msgInfo q = ∅) as ->.
      { apply map_empty. intros k. destruct (decide (k = 0)) as [->|Hk]; [done|].
        by apply Hkey. }
      rewrite map_size_empty. lia.
  - intros data k Hk Hne.
    destruct (header_Some_length _ _ _ Hk) as (b0 & b1 & rest & ->).
    unfold Extend.Unmarshal. unfold header in Hk. rewrite Hk. run_eff.
    by rewrite (Hkey k Hne).
Qed.

(** X17: after [SetHandler(msg, h)] or [SetRouter(msg, r)] of a [Processor]
    has returned, the record under the ID of the schema holds [h], or [r]:
    [Route] of a message of any schema that has this ID calls [h] and then
    submits to the router of the record, or calls the handler of the record
    and then submits to [r]; [Marshal] does what it did before. *)
Theorem X17_Extend_attach_by_ID (p p' : Extend.Processor) (msg : any) :
  (forall h,
      Extend.SetHandler p msg h = Ok p' ->
      exists id i,
        Extend.msgID p !! TypeOf msg = Some id /\
        Extend.msgInfo p !! id = Some i /\
        (forall msg' userData, is_raw msg' = false ->
           Extend.msgID p !! TypeOf msg' = Some id ->
           Extend.Route p' msg' userData
           = (typed_calls h (Extend.MsgInfo.msgRouter i) msg' userData, Value None)) /\
        (forall msg', Extend.Marshal p' msg' = Extend.Marshal p msg')) /\
  (forall r,
      Extend.SetRouter p msg r = Ok p' ->
      exists id i,
        Extend.msgID p !! TypeOf msg = Some id /\
        Extend.msgInfo p !! id = Some i /\
        (forall msg' userData, is_raw msg' = false ->
           Extend.msgID p !! TypeOf msg' = Some id ->
           Extend.Route p' msg' userData
           = (typed_calls (Extend.MsgInfo.msgHandler i) r msg' userData, Value None)) /\
        (forall msg', Extend.Marshal p' msg' = Extend.Marshal p msg')).
Proof.
  split.
  - intros h. unfold Extend.SetHandler.
    destruct (Extend.msgID p !! TypeOf msg) as [id|] eqn:Hid; [|done].
    intros (i & Hi & ->)%Extend_update_info_Ok.
    exists id, i. split; [done|]. split; [done|]. split; [|done].
    intros msg' userData Hraw Hid'.
    apply (Extend_Route_typed _ msg' userData (Extend.MsgInfo.with_msgHandler i h));
      [done|].
    unfold Extend_info_of_type. simpl. rewrite Hid'. simpl. by rewrite lookup_insert_eq.
  - intros r. unfold Extend.SetRouter.
    destruct (Extend.msgID p !! TypeOf msg) as [id|] eqn:Hid; [|done].
    intros (i & Hi & ->)%Extend_update_info_Ok.
    exists id, i. split; [done|]. split; [done|]. split; [|done].
    intros msg' userData Hraw Hid'.
    apply (Extend_Route_typed _ msg' userData (Extend.MsgInfo.with_msgRouter i r));
      [done|].
    unfold Extend_info_of_type. simpl. rewrite Hid'. simpl. by rewrite lookup_insert_eq.
Qed.


(** X18: on a configured [ProcessorV1] the frame is transparent to the
    payload.  For a message of a schema registered under [id], with [id]
    bound to the schema on the decode side, the bytes that [Unmarshal] of
    the two concatenated segments of [Marshal] passes on are exactly the
    bytes that proto.Marshal gave: to proto.Unmarshal, together with a fresh
    instance of the schema, when no raw handler is attached, and inside the
    [MsgRaw] of [id] when one is. *)
Theorem X18_frame_carries_the_payload (ops : list V1.op) (p : V1.ProcessorV1)
    (e : rtype) (v : body) (id : uint16) :
  id < 65536 ->
  V1.run V1.NewMsgIdProcessor ops = Ok p ->
  V1.msgID p !! Some (Ptr e) = Some id ->
  V1.typeID p !! id = Some (Some (Ptr e)) ->
  exists segs i,
    outcome_of (V1.Marshal p (AMsg (Ptr e) v))
    = Value (Some segs, ErrProto <$> snd (proto_Marshal (Ptr e) v)) /\
    V1.msgInfo p !! Some (Ptr e) = Some i /\
    match V1.MsgInfoV1.msgRawHandler i with
    | Some _ =>
        V1.Unmarshal p (concat segs)
        = ([], Value (Some (ARaw (MsgRaw.mk id (fst (proto_Marshal (Ptr e) v)))), None))
    | None =>
        trace (V1.Unmarshal p (concat segs))
        = [EvProtoUnmarshal (fst (proto_Marshal (Ptr e) v)) (fresh e)]
    end.
Proof.
  intros Hid Hrun Hreg Hdec. apply V1_reachable_wf in Hrun as Hwf.
  destruct (wf_msgID p Hwf _ _ Hreg) as [[i Hi] _].
  destruct (wf_info p Hwf _ _ Hi) as (Hty & Hid' & _).
  assert (V1.MsgInfoV1.msgID i = id) as Hidi by congruence.
  eexists. exists i. split; [|split; [done|]].
  - rewrite (V1_Marshal_registered p _ _ i Hi). simpl. by rewrite Hidi.
  - set (hdr := if V1.littleEndian p
                then LittleEndian.PutUint16 id else BigEndian.PutUint16 id).
    set (data := fst (proto_Marshal (Ptr e) v)).
    assert (Hcat : concat [hdr; data] = hdr ++ data) by (simpl; by rewrite app_nil_r).
    rewrite Hcat.
    assert (Hhd : header (V1.littleEndian p) (hdr ++ data) = Some id)
      by (by apply header_PutUint16).
    assert (Hdrop : drop 2 (hdr ++ data) = data)
      by (unfold hdr; by destruct (V1.littleEndian p)).
    destruct (V1.MsgInfoV1.msgRawHandler i) as [h|] eqn:Hraw.
    + rewrite (V1_Unmarshal_raw p _ id i h); [by rewrite Hdrop|done| |done].
      unfold V1_info_of_id. rewrite Hdec. done.
    + rewrite (V1_Unmarshal_typed p id e i (hdr ++ data) data); done.
Qed.

(** X19: on a configured [ProcessorV1], [SetRawHandler(k, nil)] that returns
    takes the raw handler off: a frame whose header reads [k] is decoded
    again, into a fresh instance of the schema that [k] is bound to. *)
Theorem X19_SetRawHandler_nil_detaches (ops : list V1.op) (p p' : V1.ProcessorV1)
    (k : uint16) (data : list byte) :
  V1.run V1.NewMsgIdProcessor ops = Ok p ->
  V1.SetRawHandler p k None = Ok p' ->
  header (V1.littleEndian p') data = Some k ->
  exists e,
    V1.typeID p' !! k = Some (Some (Ptr e)) /\
    V1.Unmarshal p' data
    = ([EvProtoUnmarshal (drop 2 data) (fresh e)],
       Value (Some (AMsg (Ptr e) (fst (proto_Unmarshal (drop 2 data) (Ptr e) (zero e)))),
              ErrProto <$> snd (proto_Unmarshal (drop 2 data) (Ptr e) (zero e)))).
Proof.
  intros Hrun HS Hk. apply V1_reachable_wf in Hrun as Hwf.
  assert (Hwf' : V1_wf p') by (by apply (V1_step_wf p (V1.OpSetRawHandler k None))).
  unfold V1.SetRawHandler in HS.
  destruct (V1.typeID p !! k) as [t|] eqn:Ht; [|done].
  apply V1_update_info_Ok in HS as (i & Hi & ->).
  destruct (wf_info p Hwf _ _ Hi) as (_ & _ & e & ->).
  exists e. split; [done|].
  apply (V1_Unmarshal_typed_wf _ data k e); [done..|].
  unfold V1_info_of_id. simpl. rewrite Ht. simpl. by rewrite lookup_insert_eq.
Qed.

End Configuration.

(** ** Concrete runs *)

#[local] Existing Instance wire.

Lemma schema_inj k k' : schema k = schema k' -> k = k'.
Proof.
  unfold schema. intros [= Hs]. change (pretty k = pretty k') in Hs.
  by apply (inj pretty) in Hs.
Qed.

Lemma fill_S n :
  fill (S n) = fill n ++ [@V1.OpRegister wire (N.of_nat n) (@AMsg wire (schema n) [])].
Proof. unfold fill. by rewrite seq_S, fmap_app. Qed.

Lemma V1_run_fill n :
  N.of_nat n <= MaxUint16 ->
  exists p,
    @V1.run wire V1.NewMsgIdProcessor (fill n) = Ok p /\
    size (V1.msgInfo p) = n /\
    forall k, (n <= k)%nat -> V1.msgInfo p !! Some (schema k) = None.
Proof.
  induction n as [|n IH]; intros Hn.
  - exists V1.NewMsgIdProcessor. split; [done|]. split; [done|].
    intros k _. apply lookup_empty.
  - destruct IH as (V1p & Hrun & Hsz & Hfree); [lia|].
    rewrite fill_S, (V1_run_app _ _ _ _ Hrun).
    cbn [V1.run V1.step].
    pose proof (Hfree n (le_n n)) as Hnew. unfold schema.
    rewrite (@V1_Register_fresh wire V1p (N.of_nat n) (Struct ("M" +:+ pretty n)) []);
      [|exact Hnew|rewrite Hsz; unfold MaxUint16 in *; lia].
    eexists. split; [done|]. cbn [V1.msgInfo]. split.
    + rewrite map_size_insert_None; [by rewrite Hsz | exact Hnew].
    + intros k Hk. rewrite lookup_insert_ne.
      * apply Hfree. lia.
      * intros Hs. assert (n = k) by (apply schema_inj; unfold schema; congruence). lia.
Qed.

(** On a [Processor], the frame that [Marshal] writes for a schema
    registered under the ID 5 is not read back: [Unmarshal] finds no record
    under 5, the record being under 0. *)
Lemma Extend_Register_5_not_read_back :
  Extend.run Extend.NewProcessor [Extend.OpRegister 5 ping0]
  = Ok (Extend_after [Extend.OpRegister 5 ping0]) /\
  Extend.msgInfo (Extend_after [Extend.OpRegister 5 ping0]) !! 0
  = Some (Extend.MsgInfo.mk (Some Ping) 5 None None None) /\
  outcome_of (Extend.Marshal (Extend_after [Extend.OpRegister 5 ping0]) ping0)
  = Value (Some [[x00; x05]; []], None) /\
  Extend.Unmarshal (Extend_after [Extend.OpRegister 5 ping0]) [x00; x05]
  = ([], Value (None, Some (ErrUnmarshalIDNotRegistered 5))).
Proof. repeat (split; [vm_compute; reflexivity|]). vm_compute; reflexivity. Qed.

(** C1 fails as stated, on [ProcessorV1].  First: [Ping] is registered
    under the ID 1, then [Pong] under the same ID; both calls return, and
    the frame that [Marshal] writes for a fresh [Ping] is read back as a
    [Pong].  Second: with a raw handler attached to the ID 1 the same frame
    is read back as a [MsgRaw]. *)
Lemma C1_counterexample_rebound_or_raw :
  (@V1.run wire V1.NewMsgIdProcessor [V1.OpRegister 1 ping0; V1.OpRegister 1 pong0]
   = Ok (V1_after [V1.OpRegister 1 ping0; V1.OpRegister 1 pong0]) /\
   exists segs,
     outcome_of (V1.Marshal (V1_after [V1.OpRegister 1 ping0; V1.OpRegister 1 pong0]) ping0)
     = Value (Some segs, None) /\
     outcome_of (V1.Unmarshal (V1_after [V1.OpRegister 1 ping0; V1.OpRegister 1 pong0])
                   (concat segs))
     = Value (Some pong0, None) /\
     TypeOf pong0 <> TypeOf ping0) /\
  (@V1.run wire V1.NewMsgIdProcessor
     [V1.OpRegister 1 ping0; V1.OpSetRawHandler 1 (Some (FuncVal 0))]
   = Ok (V1_after [V1.OpRegister 1 ping0; V1.OpSetRawHandler 1 (Some (FuncVal 0))]) /\
   exists segs,
     outcome_of (V1.Marshal
                   (V1_after [V1.OpRegister 1 ping0; V1.OpSetRawHandler 1 (Some (FuncVal 0))])
                   ping0)
     = Value (Some segs, None) /\
     outcome_of (V1.Unmarshal
                   (V1_after [V1.OpRegister 1 ping0; V1.OpSetRawHandler 1 (Some (FuncVal 0))])
                   (concat segs))
     = Value (Some (ARaw (MsgRaw.mk 1 [])), None)).
Proof.
  split; (split; [by vm_compute|]); eexists.
  - split; [by vm_compute|]. split; [by vm_compute|]. discriminate.
  - split; by vm_compute.
Qed.

(** C2 fails as stated, on [ProcessorV1]: after [Register(1, &Ping{})],
    [Register(1, &Pong{})] returns as well; the ID 1, which [Ping] held, is
    now bound to [Pong] on the decode side, both schemas have the ID 1 on
    the encode side, and the binding is not a bijection. *)
Lemma C2_counterexample_ID_rebound :
  @V1.Register wire V1.NewMsgIdProcessor 1 ping0 = Ok (V1_after [V1.OpRegister 1 ping0]) /\
  V1.typeID (V1_after [V1.OpRegister 1 ping0]) !! 1 = Some (Some Ping) /\
  @V1.Register wire (V1_after [V1.OpRegister 1 ping0]) 1 pong0
  = Ok (V1_after [V1.OpRegister 1 ping0; V1.OpRegister 1 pong0]) /\
  V1.typeID (V1_after [V1.OpRegister 1 ping0; V1.OpRegister 1 pong0]) !! 1
  = Some (Some Pong) /\
  V1.msgID (V1_after [V1.OpRegister 1 ping0; V1.OpRegister 1 pong0]) !! Some Ping = Some 1 /\
  V1.msgID (V1_after [V1.OpRegister 1 ping0; V1.OpRegister 1 pong0]) !! Some Pong = Some 1 /\
  ~ V1_bijective (V1_after [V1.OpRegister 1 ping0; V1.OpRegister 1 pong0]).
Proof.
  do 6 (split; [vm_compute; reflexivity|]).
  intros Hb. destruct (Hb (Some Ping) 1) as [Hf _].
  assert (Hping : V1.msgID (V1_after [V1.OpRegister 1 ping0; V1.OpRegister 1 pong0])
                    !! Some Ping = Some 1) by by vm_compute.
  specialize (Hf Hping). clear Hb Hping. vm_compute in Hf. discriminate Hf.
Qed.

(** C3 fails as stated, on [ProcessorV1]: with 65535 schemas registered,
    which is fewer than 65536, [Register] of one more fresh valid schema
    ends in [log.Fatal] "too many". *)
Lemma C3_counterexample_full_at_65535 :
  exists p,
    @V1.run wire V1.NewMsgIdProcessor (fill (N.to_nat 65535)) = Ok p /\
    N.of_nat (size (V1.msgInfo p)) < 65536 /\
    V1.msgInfo p !! Some (schema (N.to_nat 65535)) = None /\
    V1.Register p 65535 (@AMsg wire (schema (N.to_nat 65535)) []) = Fatal FatalTooMany p.
Proof.
  destruct (V1_run_fill (N.to_nat 65535)) as (p & Hrun & Hsz & Hfree).
  { by rewrite N2Nat.id. }
  exists p. split; [done|].
  split; [by rewrite Hsz, N2Nat.id|].
  split; [by apply Hfree|].
  apply (@V1_Register_full wire p 65535 (Struct ("M" +:+ pretty (N.to_nat 65535))) []).
  - by apply Hfree.
  - by rewrite Hsz, N2Nat.id.
Qed.

(** ** The theorems at concrete inputs *)

Lemma C7_witness :
  (length [x07] = 0 \/ length [x07] = 1)%nat /\
  V1.Unmarshal (V1_after [V1.OpRegister 1 ping0]) [x07]
  = ([], Value (None, Some ErrTooShort)).
Proof.
  split; [right; reflexivity|].
  apply (proj1 (C7_Unmarshal_too_short [x07] (or_intror eq_refl))).
Defined.

Lemma C5_witness :
  (2 <= length [x00; x01; x08; x07])%nat /\
  header (V1.littleEndian
            (V1_after [V1.OpRegister 1 ping0; V1.OpSetRawHandler 1 (Some (FuncVal 7))]))
    [x00; x01; x08; x07] = Some 1 /\
  V1_info_of_id (V1_after [V1.OpRegister 1 ping0; V1.OpSetRawHandler 1 (Some (FuncVal 7))]) 1
  = Some (V1.MsgInfoV1.mk (Some Ping) 1 None None (Some (FuncVal 7))) /\
  V1.Unmarshal (V1_after [V1.OpRegister 1 ping0; V1.OpSetRawHandler 1 (Some (FuncVal 7))])
    [x00; x01; x08; x07]
  = ([], Value (Some (ARaw (MsgRaw.mk 1 [x08; x07])), None)).
Proof.
  assert (Hlen : (2 <= length [x00; x01; x08; x07])%nat) by (simpl; lia).
  split; [exact Hlen|]. split; [reflexivity|]. split; [reflexivity|].
  exact (proj1 (proj1 (C5_Unmarshal_raw [x00; x01; x08; x07] 1 (FuncVal 7) Hlen)
                  (V1_after [V1.OpRegister 1 ping0; V1.OpSetRawHandler 1 (Some (FuncVal 7))])
                  (V1.MsgInfoV1.mk (Some Ping) 1 None None (Some (FuncVal 7)))
                  eq_refl eq_refl eq_refl)).
Defined.

Lemma C4_witness :
  is_raw ping7 = false /\
  V1_info_of_type
    (V1_after [V1.OpRegister 1 ping0; V1.OpSetHandler ping0 (Some (FuncVal 3));
               V1.OpSetRouter ping0 (Some (ServerRef 4))]) (TypeOf ping7)
  = Some (V1.MsgInfoV1.mk (Some Ping) 1 (Some (ServerRef 4)) (Some (FuncVal 3)) None) /\
  V1.Route
    (V1_after [V1.OpRegister 1 ping0; V1.OpSetHandler ping0 (Some (FuncVal 3));
               V1.OpSetRouter ping0 (Some (ServerRef 4))]) ping7 ANil
  = ([EvCall (FuncVal 3) [ping7; ANil]; EvGo (ServerRef 4) (Some Ping) [ping7; ANil]],
     Value None).
Proof.
  split; [reflexivity|]. split; [reflexivity|].
  apply (proj1 (C4_Route_handler_then_router ping7 ANil (FuncVal 3) (ServerRef 4) eq_refl)
           _ (V1.MsgInfoV1.mk (Some Ping) 1 (Some (ServerRef 4)) (Some (FuncVal 3)) None));
    reflexivity.
Defined.

Lemma C6_witness :
  TypeOf ping7 = TypeOf ping0 /\
  V1.Register V1.NewMsgIdProcessor 1 ping0 = Ok (V1_after [V1.OpRegister 1 ping0]) /\
  V1.run (V1_after [V1.OpRegister 1 ping0]) [V1.OpSetHandler ping0 (Some (FuncVal 3))]
  = Ok (V1_after [V1.OpRegister 1 ping0; V1.OpSetHandler ping0 (Some (FuncVal 3))]) /\
  V1.Register (V1_after [V1.OpRegister 1 ping0; V1.OpSetHandler ping0 (Some (FuncVal 3))])
    2 ping7
  = Fatal (FatalAlreadyRegistered (Some Ping))
      (V1_after [V1.OpRegister 1 ping0; V1.OpSetHandler ping0 (Some (FuncVal 3))]).
Proof.
  assert (H1 : V1.Register V1.NewMsgIdProcessor 1 ping0
               = Ok (V1_after [V1.OpRegister 1 ping0])) by (vm_compute; reflexivity).
  assert (H2 : V1.run (V1_after [V1.OpRegister 1 ping0])
                 [V1.OpSetHandler ping0 (Some (FuncVal 3))]
               = Ok (V1_after [V1.OpRegister 1 ping0;
                               V1.OpSetHandler ping0 (Some (FuncVal 3))]))
    by (vm_compute; reflexivity).
  split; [reflexivity|]. split; [exact H1|]. split; [exact H2|].
  exact (proj1 (C6_Register_twice_is_fatal 1 2 ping0 ping7 eq_refl) _ _ _ _ H1 H2).
Defined.

Lemma C8_witness :
  forallb (fun o => negb (V1_sets_byte_order o)) [V1.OpRegister 1 ping0] = true /\
  V1.run V1.NewMsgIdProcessor [V1.OpRegister 1 ping0] = Ok (V1_after [V1.OpRegister 1 ping0]) /\
  V1.Marshal (V1_after [V1.OpRegister 1 ping0]) ping7
  = ([EvProtoMarshal ping7], Value (Some [[x00; x01]; [x08; x07]], None)).
Proof.
  assert (Hrun : V1.run V1.NewMsgIdProcessor [V1.OpRegister 1 ping0]
                 = Ok (V1_after [V1.OpRegister 1 ping0])) by (vm_compute; reflexivity).
  split; [reflexivity|]. split; [exact Hrun|].
  destruct (proj1 (proj2 C8_default_byte_order_is_big_endian)
              [V1.OpRegister 1 ping0] _ eq_refl Hrun) as (_ & _ & Hone & _).
  apply (Hone Ping [x08; x07] (V1.MsgInfoV1.mk (Some Ping) 1 None None None));
    reflexivity.
Defined.

Lemma C2_witness :
  V1.run V1.NewMsgIdProcessor [V1.OpRegister 1 ping0] = Ok (V1_after [V1.OpRegister 1 ping0]) /\
  V1.Register (V1_after [V1.OpRegister 1 ping0]) 2 pong0
  = Ok (V1_after [V1.OpRegister 1 ping0; V1.OpRegister 2 pong0]) /\
  V1.msgID (V1_after [V1.OpRegister 1 ping0; V1.OpRegister 2 pong0]) !! TypeOf pong0 = Some 2 /\
  V1.typeID (V1_after [V1.OpRegister 1 ping0; V1.OpRegister 2 pong0]) !! 2
  = Some (TypeOf pong0).
Proof.
  assert (Hrun : V1.run V1.NewMsgIdProcessor [V1.OpRegister 1 ping0]
                 = Ok (V1_after [V1.OpRegister 1 ping0])) by (vm_compute; reflexivity).
  assert (HR : V1.Register (V1_after [V1.OpRegister 1 ping0]) 2 pong0
               = Ok (V1_after [V1.OpRegister 1 ping0; V1.OpRegister 2 pong0]))
    by (vm_compute; reflexivity).
  split; [exact Hrun|]. split; [exact HR|].
  destruct (C2_V1_Register_binds_both_sides _ _ Hrun) as (_ & _ & Hreg).
  destruct (Hreg 2 pong0 _ HR) as (Hm & Ht & _).
  split; [exact Hm | exact Ht].
Defined.

Lemma C3_witness :
  V1.msgInfo V1.NewMsgIdProcessor !! Some Ping = None /\
  N.of_nat (size (V1.msgInfo V1.NewMsgIdProcessor)) < 65535 /\
  exists p',
    V1.Register V1.NewMsgIdProcessor 1 ping0 = Ok p' /\
    size (V1.msgInfo p') = S (size (V1.msgInfo V1.NewMsgIdProcessor)).
Proof.
  assert (Hnone : V1.msgInfo V1.NewMsgIdProcessor !! Some Ping = None) by reflexivity.
  assert (Hsz : N.of_nat (size (V1.msgInfo V1.NewMsgIdProcessor)) < 65535) by reflexivity.
  split; [exact Hnone|]. split; [exact Hsz|].
  exact (proj1 (proj1 C3_capacity_is_MaxUint16 V1.NewMsgIdProcessor 1 (Struct "Ping") []
                  Hnone) Hsz).
Defined.

Lemma C1_witness :
  1 < 65536 /\
  proto_Marshal Ping (zero (Struct "Ping")) = ([], None) /\
  proto_Unmarshal [] Ping (zero (Struct "Ping")) = (zero (Struct "Ping"), None) /\
  V1.run V1.NewMsgIdProcessor [V1.OpRegister 1 ping0] = Ok (V1_after [V1.OpRegister 1 ping0]) /\
  V1.msgID (V1_after [V1.OpRegister 1 ping0]) !! Some Ping = Some 1 /\
  V1.typeID (V1_after [V1.OpRegister 1 ping0]) !! 1 = Some (Some Ping) /\
  (i ← V1_info_of_id (V1_after [V1.OpRegister 1 ping0]) 1; V1.MsgInfoV1.msgRawHandler i)
  = None /\
  exists segs,
    V1.Marshal (V1_after [V1.OpRegister 1 ping0]) (fresh (Struct "Ping"))
    = ([EvProtoMarshal (fresh (Struct "Ping"))], Value (Some segs, None)) /\
    V1.Unmarshal (V1_after [V1.OpRegister 1 ping0]) (concat segs)
    = ([EvProtoUnmarshal [] (fresh (Struct "Ping"))],
       Value (Some (fresh (Struct "Ping")), None)).
Proof.
  assert (Hrun : V1.run V1.NewMsgIdProcessor [V1.OpRegister 1 ping0]
                 = Ok (V1_after [V1.OpRegister 1 ping0])) by (vm_compute; reflexivity).
  assert (Hid : 1 < 65536) by reflexivity.
  split; [exact Hid|]. split; [reflexivity|]. split; [reflexivity|].
  split; [exact Hrun|]. split; [reflexivity|]. split; [reflexivity|].
  split; [reflexivity|].
  exact (proj1 (C1_Unmarshal_of_Marshal_fresh (Struct "Ping") 1 [] Hid eq_refl eq_refl)
           _ _ Hrun eq_refl eq_refl eq_refl).
Defined.

(** ** The further properties at concrete inputs *)

Lemma run_ping :
  V1.run V1.NewMsgIdProcessor [V1.OpRegister 1 ping0] = Ok (V1_after [V1.OpRegister 1 ping0]).
Proof. vm_compute; reflexivity. Qed.


Lemma X2_witness :
  V1.run V1.NewMsgIdProcessor [V1.OpRegister 1 ping0] = Ok (V1_after [V1.OpRegister 1 ping0]) /\
  V1.msgID (V1_after [V1.OpRegister 1 ping0]) !! TypeOf pong0 = None /\
  V1.Marshal (V1_after [V1.OpRegister 1 ping0]) pong0
  = ([], Value (None, Some (ErrMarshalNotRegistered (TypeOf pong0)))).
Proof.
  split; [exact run_ping|]. split; [reflexivity|].
  exact (proj1 (proj1 (X2_Marshal_configured pong0) _ _ run_ping) eq_refl).
Defined.

Lemma X3_witness :
  V1.run V1.NewMsgIdProcessor [V1.OpRegister 1 ping0] = Ok (V1_after [V1.OpRegister 1 ping0]) /\
  header (V1.littleEndian (V1_after [V1.OpRegister 1 ping0])) [x00; x01; x08; x07] = Some 1 /\
  V1.typeID (V1_after [V1.OpRegister 1 ping0]) !! 1 = Some (Some (Ptr (Struct "Ping"))) /\
  V1.Unmarshal (V1_after [V1.OpRegister 1 ping0]) [x00; x01; x08; x07]
  = ([EvProtoUnmarshal [x08; x07] ping0], Value (Some ping7, None)).
Proof.
  split; [exact run_ping|]. split; [reflexivity|]. split; [reflexivity|].
  exact (X3_Unmarshal_typed_configured _ _ [x00; x01; x08; x07] 1 (Struct "Ping")
           run_ping eq_refl eq_refl eq_refl).
Defined.

Lemma X4_witness :
  forallb (fun o => negb (V1_registers_id 2 o)) [V1.OpRegister 1 ping0] = true /\
  header (V1.littleEndian (V1_after [V1.OpRegister 1 ping0])) [x00; x02; x08] = Some 2 /\
  V1.Unmarshal (V1_after [V1.OpRegister 1 ping0]) [x00; x02; x08]
  = ([], Value (None, Some (ErrUnmarshalIDNotRegistered 2))).
Proof.
  split; [reflexivity|]. split; [reflexivity|].
  exact (X4_Unmarshal_ID_never_registered [V1.OpRegister 1 ping0] _ [x00; x02; x08] 2
           eq_refl run_ping eq_refl).
Defined.

Lemma X5_witness :
  exists r, outcome_of (V1.Unmarshal (V1_after [V1.OpRegister 1 ping0]) [x00; x01; xff])
            = Value r.
Proof.
  exact (proj1 (proj1 (X5_Unmarshal_never_panics [x00; x01; xff]) _ _ run_ping)).
Defined.

Lemma X6_witness :
  is_raw pong0 = false /\
  V1.msgID (V1_after [V1.OpRegister 1 ping0]) !! TypeOf pong0 = None /\
  V1.Route (V1_after [V1.OpRegister 1 ping0]) pong0 ANil
  = ([], Value (Some (ErrRouteNotRegistered (TypeOf pong0)))).
Proof.
  split; [reflexivity|]. split; [reflexivity|].
  destruct (X6_Route_configured _ _ pong0 ANil run_ping) as (_ & _ & Htyped & _).
  exact (proj1 (Htyped eq_refl) eq_refl).
Defined.

Lemma X7_witness :
  outcome_of (V1.Unmarshal (V1_after [V1.OpRegister 1 ping0]) [x00; x01; x08; x07])
  = Value (Some ping7, None) /\
  outcome_of (V1.Route (V1_after [V1.OpRegister 1 ping0]) ping7 ANil) = Value None.
Proof.
  assert (Hu : outcome_of (V1.Unmarshal (V1_after [V1.OpRegister 1 ping0])
                             [x00; x01; x08; x07])
               = Value (Some ping7, None)) by reflexivity.
  split; [exact Hu|].
  exact (X7_Route_accepts_what_Unmarshal_returns _ _ _ ping7 ANil None run_ping Hu).
Defined.

Lemma X8_witness :
  V1.SetHandler (V1_after [V1.OpRegister 1 ping0]) ping0 (Some (FuncVal 3))
  = Ok (V1_after [V1.OpRegister 1 ping0; V1.OpSetHandler ping0 (Some (FuncVal 3))]) /\
  V1.Marshal (V1_after [V1.OpRegister 1 ping0; V1.OpSetHandler ping0 (Some (FuncVal 3))]) ping7
  = V1.Marshal (V1_after [V1.OpRegister 1 ping0]) ping7 /\
  exists i,
    V1.msgInfo (V1_after [V1.OpRegister 1 ping0]) !! TypeOf ping0 = Some i /\
    V1.Route (V1_after [V1.OpRegister 1 ping0; V1.OpSetHandler ping0 (Some (FuncVal 3))])
      ping7 ANil
    = (typed_calls (Some (FuncVal 3)) (V1.MsgInfoV1.msgRouter i) ping7 ANil, Value None).
Proof.
  assert (HS : V1.SetHandler (V1_after [V1.OpRegister 1 ping0]) ping0 (Some (FuncVal 3))
               = Ok (V1_after [V1.OpRegister 1 ping0;
                               V1.OpSetHandler ping0 (Some (FuncVal 3))]))
    by (vm_compute; reflexivity).
  split; [exact HS|].
  destruct (X8_SetHandler_last_write_wins _ _ ping0 (Some (FuncVal 3)) HS)
    as ((i & Hi & HR) & _ & _ & HM & _).
  split; [exact (HM ping7)|].
  exists i. split; [exact Hi|]. exact (HR ping7 ANil eq_refl eq_refl).
Defined.

Lemma X9_witness :
  V1.SetRouter (V1_after [V1.OpRegister 1 ping0]) ping0 (Some (ServerRef 4))
  = Ok (V1_after [V1.OpRegister 1 ping0; V1.OpSetRouter ping0 (Some (ServerRef 4))]) /\
  exists i,
    V1.msgInfo (V1_after [V1.OpRegister 1 ping0]) !! TypeOf ping0 = Some i /\
    V1.Route (V1_after [V1.OpRegister 1 ping0; V1.OpSetRouter ping0 (Some (ServerRef 4))])
      ping7 ANil
    = (typed_calls (V1.MsgInfoV1.msgHandler i) (Some (ServerRef 4)) ping7 ANil, Value None).
Proof.
  assert (HS : V1.SetRouter (V1_after [V1.OpRegister 1 ping0]) ping0 (Some (ServerRef 4))
               = Ok (V1_after [V1.OpRegister 1 ping0;
                               V1.OpSetRouter ping0 (Some (ServerRef 4))]))
    by (vm_compute; reflexivity).
  split; [exact HS|].
  destruct (X9_SetRouter_last_write_wins _ _ ping0 (Some (ServerRef 4)) HS)
    as ((i & Hi & HR) & _).
  exists i. split; [exact Hi|]. exact (HR ping7 ANil eq_refl eq_refl).
Defined.

Lemma X10_witness :
  V1.SetRawHandler (V1_after [V1.OpRegister 1 ping0]) 1 (Some (FuncVal 7))
  = Ok (V1_after [V1.OpRegister 1 ping0; V1.OpSetRawHandler 1 (Some (FuncVal 7))]) /\
  header (V1.littleEndian
            (V1_after [V1.OpRegister 1 ping0; V1.OpSetRawHandler 1 (Some (FuncVal 7))]))
    [x00; x01; x08; x07] = Some 1 /\
  V1.Route (V1_after [V1.OpRegister 1 ping0; V1.OpSetRawHandler 1 (Some (FuncVal 7))])
    (ARaw (MsgRaw.mk 1 [x08; x07])) ANil
  = ([EvCall (FuncVal 7) [AUint16 1; ABytes [x08; x07]; ANil]], Value None).
Proof.
  assert (HS : V1.SetRawHandler (V1_after [V1.OpRegister 1 ping0]) 1 (Some (FuncVal 7))
               = Ok (V1_after [V1.OpRegister 1 ping0;
                               V1.OpSetRawHandler 1 (Some (FuncVal 7))]))
    by (vm_compute; reflexivity).
  split; [exact HS|]. split; [reflexivity|].
  exact (proj2 (proj1 (X10_raw_frame_reaches_raw_handler 1 (FuncVal 7)
                         [x00; x01; x08; x07] ANil) _ _ HS eq_refl)).
Defined.

Lemma X11_witness :
  V1.msgID (V1_after [V1.OpRegister 1 ping0]) !! TypeOf pong0 = None /\
  V1.SetHandler (V1_after [V1.OpRegister 1 ping0]) pong0 (Some (FuncVal 3))
  = Fatal (FatalNotRegistered (TypeOf pong0)) (V1_after [V1.OpRegister 1 ping0]).
Proof.
  split; [reflexivity|].
  destruct (X11_attaching_is_fatal_iff_unknown _ _ run_ping) as (HH & _ & _).
  exact (proj1 (HH pong0 (Some (FuncVal 3))) eq_refl).
Defined.

Lemma X12_witness :
  V1.run V1.NewMsgIdProcessor [V1.OpRegister 1 ping0; V1.OpSetByteOrder true]
  = Ok (V1_after [V1.OpRegister 1 ping0; V1.OpSetByteOrder true]) /\
  V1.littleEndian (V1_after [V1.OpRegister 1 ping0; V1.OpSetByteOrder true]) = true /\
  outcome_of (V1.Marshal (V1_after [V1.OpRegister 1 ping0; V1.OpSetByteOrder true]) ping7)
  = Value (Some [[x01; x00]; [x08; x07]], None).
Proof.
  assert (Hrun : V1.run V1.NewMsgIdProcessor [V1.OpRegister 1 ping0; V1.OpSetByteOrder true]
                 = Ok (V1_after [V1.OpRegister 1 ping0; V1.OpSetByteOrder true]))
    by (vm_compute; reflexivity).
  split; [exact Hrun|].
  destruct (proj1 X12_byte_order_is_last_SetByteOrder _ _ _ Hrun) as [Hle HM].
  split; [exact Hle|].
  exact (HM Ping [x08; x07] (V1.MsgInfoV1.mk (Some Ping) 1 None None None) eq_refl).
Defined.

Lemma X13_witness :
  V1.msgID (V1_after [V1.OpRegister 1 ping0]) !! Some Ping = Some 1 /\
  V1.run (V1_after [V1.OpRegister 1 ping0])
    [V1.OpRegister 2 pong0; V1.OpSetHandler ping0 (Some (FuncVal 3))]
  = Ok (V1_after [V1.OpRegister 1 ping0; V1.OpRegister 2 pong0;
                  V1.OpSetHandler ping0 (Some (FuncVal 3))]) /\
  V1.msgID (V1_after [V1.OpRegister 1 ping0; V1.OpRegister 2 pong0;
                      V1.OpSetHandler ping0 (Some (FuncVal 3))]) !! Some Ping = Some 1.
Proof.
  assert (Hrun : V1.run (V1_after [V1.OpRegister 1 ping0])
                   [V1.OpRegister 2 pong0; V1.OpSetHandler ping0 (Some (FuncVal 3))]
                 = Ok (V1_after [V1.OpRegister 1 ping0; V1.OpRegister 2 pong0;
                                 V1.OpSetHandler ping0 (Some (FuncVal 3))]))
    by (vm_compute; reflexivity).
  split; [reflexivity|]. split; [exact Hrun|].
  exact (proj1 (proj1 (X13_registration_is_permanent (Some Ping) 1)
                  _ _ _ _ run_ping eq_refl Hrun)).
Defined.

Lemma X14_witness :
  V1.Register (V1_after [V1.OpRegister 1 ping0]) 2 pong0
  = Ok (V1_after [V1.OpRegister 1 ping0; V1.OpRegister 2 pong0]) /\
  TypeOf ping7 <> TypeOf pong0 /\
  V1.Marshal (V1_after [V1.OpRegister 1 ping0; V1.OpRegister 2 pong0]) ping7
  = V1.Marshal (V1_after [V1.OpRegister 1 ping0]) ping7.
Proof.
  assert (HR : V1.Register (V1_after [V1.OpRegister 1 ping0]) 2 pong0
               = Ok (V1_after [V1.OpRegister 1 ping0; V1.OpRegister 2 pong0]))
    by (vm_compute; reflexivity).
  assert (Hne : TypeOf ping7 <> TypeOf pong0) by discriminate.
  split; [exact HR|]. split; [exact Hne|].
  exact (proj1 (X14_Register_leaves_the_others _ _ _ 2 pong0 run_ping HR) ping7 Hne).
Defined.

Lemma X15_witness :
  V1.run V1.NewMsgIdProcessor [V1.OpRegister 1 ping0; V1.OpRegister 2 pong0]
  = Ok (V1_after [V1.OpRegister 1 ping0; V1.OpRegister 2 pong0]) /\
  V1.msgID (V1_after [V1.OpRegister 1 ping0; V1.OpRegister 2 pong0]) !! Some Pong = Some 2 /\
  (2, Some Pong) ∈ V1.Range (V1_after [V1.OpRegister 1 ping0; V1.OpRegister 2 pong0]).
Proof.
  assert (Hrun : V1.run V1.NewMsgIdProcessor [V1.OpRegister 1 ping0; V1.OpRegister 2 pong0]
                 = Ok (V1_after [V1.OpRegister 1 ping0; V1.OpRegister 2 pong0]))
    by (vm_compute; reflexivity).
  split; [exact Hrun|]. split; [reflexivity|].
  exact (proj2 (proj1 (X15_Range_visits_each_schema_once _ _ Hrun) 2 (Some Pong)) eq_refl).
Defined.

Lemma X16_witness :
  Extend.msgInfo Extend.NewProcessor = ∅ /\
  Extend.msgID Extend.NewProcessor = ∅ /\
  Extend.run Extend.NewProcessor [Extend.OpRegister 5 ping0; Extend.OpRegister 6 pong0]
  = Ok (Extend_after [Extend.OpRegister 5 ping0; Extend.OpRegister 6 pong0]) /\
  (length (Extend.Range (Extend_after [Extend.OpRegister 5 ping0; Extend.OpRegister 6 pong0]))
   <= 1)%nat.
Proof.
  assert (Hrun : Extend.run Extend.NewProcessor
                   [Extend.OpRegister 5 ping0; Extend.OpRegister 6 pong0]
                 = Ok (Extend_after [Extend.OpRegister 5 ping0; Extend.OpRegister 6 pong0]))
    by (vm_compute; reflexivity).
  split; [reflexivity|]. split; [reflexivity|]. split; [exact Hrun|].
  exact (proj1 (proj2 (X16_Extend_records_only_under_0 _ Extend.NewProcessor _
                        eq_refl eq_refl Hrun))).
Defined.

Lemma X17_witness :
  Extend.SetHandler (Extend_after [Extend.OpRegister 0 ping0]) ping0 (Some (FuncVal 3))
  = Ok (Extend_after [Extend.OpRegister 0 ping0; Extend.OpSetHandler ping0 (Some (FuncVal 3))]) /\
  exists id i,
    Extend.msgID (Extend_after [Extend.OpRegister 0 ping0]) !! TypeOf ping0 = Some id /\
    Extend.msgInfo (Extend_after [Extend.OpRegister 0 ping0]) !! id = Some i /\
    Extend.Route
      (Extend_after [Extend.OpRegister 0 ping0; Extend.OpSetHandler ping0 (Some (FuncVal 3))])
      ping7 ANil
    = (typed_calls (Some (FuncVal 3)) (Extend.MsgInfo.msgRouter i) ping7 ANil, Value None).
Proof.
  assert (HS : Extend.SetHandler (Extend_after [Extend.OpRegister 0 ping0]) ping0
                 (Some (FuncVal 3))
               = Ok (Extend_after [Extend.OpRegister 0 ping0;
                                   Extend.OpSetHandler ping0 (Some (FuncVal 3))]))
    by (vm_compute; reflexivity).
  split; [exact HS|].
  destruct (proj1 (X17_Extend_attach_by_ID _ _ ping0) (Some (FuncVal 3)) HS)
    as (id & i & Hid & Hi & HR & _).
  exists id, i. split; [exact Hid|]. split; [exact Hi|].
  apply (HR ping7 ANil eq_refl). exact Hid.
Defined.

Lemma X18_witness :
  1 < 65536 /\
  V1.msgID (V1_after [V1.OpRegister 1 ping0]) !! Some (Ptr (Struct "Ping")) = Some 1 /\
  V1.typeID (V1_after [V1.OpRegister 1 ping0]) !! 1 = Some (Some (Ptr (Struct "Ping"))) /\
  exists segs i,
    outcome_of (V1.Marshal (V1_after [V1.OpRegister 1 ping0])
                  (AMsg (Ptr (Struct "Ping")) [x08; x07]))
    = Value (Some segs, ErrProto <$> snd (proto_Marshal (Ptr (Struct "Ping")) [x08; x07])) /\
    V1.msgInfo (V1_after [V1.OpRegister 1 ping0]) !! Some (Ptr (Struct "Ping")) = Some i /\
    match V1.MsgInfoV1.msgRawHandler i with
    | Some _ =>
        V1.Unmarshal (V1_after [V1.OpRegister 1 ping0]) (concat segs)
        = ([], Value (Some (ARaw (MsgRaw.mk 1
                       (fst (proto_Marshal (Ptr (Struct "Ping")) [x08; x07])))), None))
    | None =>
        trace (V1.Unmarshal (V1_after [V1.OpRegister 1 ping0]) (concat segs))
        = [EvProtoUnmarshal (fst (proto_Marshal (Ptr (Struct "Ping")) [x08; x07]))
             (fresh (Struct "Ping"))]
    end.
Proof.
  assert (Hid : 1 < 65536) by reflexivity.
  split; [exact Hid|]. split; [reflexivity|]. split; [reflexivity|].
  exact (X18_frame_carries_the_payload _ _ (Struct "Ping") [x08; x07] 1
           Hid run_ping eq_refl eq_refl).
Defined.

Lemma X19_witness :
  V1.run V1.NewMsgIdProcessor [V1.OpRegister 1 ping0; V1.OpSetRawHandler 1 (Some (FuncVal 7))]
  = Ok (V1_after [V1.OpRegister 1 ping0; V1.OpSetRawHandler 1 (Some (FuncVal 7))]) /\
  V1.SetRawHandler
    (V1_after [V1.OpRegister 1 ping0; V1.OpSetRawHandler 1 (Some (FuncVal 7))]) 1 None
  = Ok (V1_after [V1.OpRegister 1 ping0; V1.OpSetRawHandler 1 (Some (FuncVal 7));
                  V1.OpSetRawHandler 1 None]) /\
  exists e,
    V1.typeID (V1_after [V1.OpRegister 1 ping0; V1.OpSetRawHandler 1 (Some (FuncVal 7));
                         V1.OpSetRawHandler 1 None]) !! 1 = Some (Some (Ptr e)) /\
    V1.Unmarshal (V1_after [V1.OpRegister 1 ping0; V1.OpSetRawHandler 1 (Some (FuncVal 7));
                            V1.OpSetRawHandler 1 None]) [x00; x01; x08; x07]
    = ([EvProtoUnmarshal (drop 2 [x00; x01; x08; x07]) (fresh e)],
       Value (Some (AMsg (Ptr e)
                      (fst (proto_Unmarshal (drop 2 [x00; x01; x08; x07]) (Ptr e) (zero e)))),
              ErrProto <$> snd (proto_Unmarshal (drop 2 [x00; x01; x08; x07]) (Ptr e) (zero e)))).
Proof.
  assert (Hrun : V1.run V1.NewMsgIdProcessor
                   [V1.OpRegister 1 ping0; V1.OpSetRawHandler 1 (Some (FuncVal 7))]
                 = Ok (V1_after [V1.OpRegister 1 ping0;
                                 V1.OpSetRawHandler 1 (Some (FuncVal 7))]))
    by (vm_compute; reflexivity).
  assert (HS : V1.SetRawHandler
                 (V1_after [V1.OpRegister 1 ping0; V1.OpSetRawHandler 1 (Some (FuncVal 7))])
                 1 None
               = Ok (V1_after [V1.OpRegister 1 ping0; V1.OpSetRawHandler 1 (Some (FuncVal 7));
                               V1.OpSetRawHandler 1 None]))
    by (vm_compute; reflexivity).
  split; [exact Hrun|]. split; [exact HS|].
  exact (X19_SetRawHandler_nil_detaches _ _ _ 1 [x00; x01; x08; x07] Hrun HS eq_refl).
Defined.
